(** * Contacts service: a shallow embedding of [main.py], [models.py] and
    [schemas.py], and the properties of its endpoints.

    The service is a FastAPI application over a SQLAlchemy session.  Each
    endpoint is a function from the request's inputs and the database to a
    response and the database after the request.  Tables are finite maps
    from the integer primary key to the row; pydantic schemas are lists of
    typed fields, and a [response_model] is the validation of the returned
    ORM object's attributes against such a list. *)

From Stdlib Require Import ZArith NArith Ascii String List.
From stdpp Require Import gmap strings list fin_maps.

Local Open Scope Z_scope.
Local Open Scope string_scope.

(** ** Python values *)

(** [datetime.date] *)
Record date := Date { year : Z; month : Z; day : Z }.

(** The Python values that are stored in a column or sent in a response. *)
Inductive value :=
| VNone
| VBool (b : bool)
| VInt (z : Z)
| VStr (s : string)
| VDate (d : date).

(** An optional string column (or an [Optional[str]] field) as a value. *)
Definition of_opt_str (o : option string) : value :=
  match o with Some s => VStr s | None => VNone end.

(** Python's [dict.get] on a dict kept in insertion order. *)
Fixpoint dict_get {A} (k : string) (d : list (string * A)) : option A :=
  match d with
  | [] => None
  | (k', v) :: d' => if String.eqb k k' then Some v else dict_get k d'
  end.

(** ** uuid: [str(uuid4())]

    [uuid4()] sets the variant and version bits in 128 random bits;
    [str] prints the 32 hexadecimal digits in groups of 8-4-4-4-12. *)

Module uuid.

Definition hexdigit (n : N) : ascii :=
  match String.get (N.to_nat n) "0123456789abcdef" with
  | Some c => c
  | None => "0"%char
  end.

(** ['%0kx' % n], the [k] low hexadecimal digits of [n]. *)
Fixpoint hex (k : nat) (n : N) : string :=
  match k with
  | O => ""
  | S k' => hex k' (n / 16) ++ String (hexdigit (n mod 16)) ""
  end.

(** [UUID(bytes=os.urandom(16), version=4)]: the integer of the UUID made
    from the random integer [r]. *)
Definition uuid4 (r : N) : N :=
  let i := N.land r (N.ones 128) in
  let i := N.ldiff i (N.shiftl 0xc000 48) in
  let i := N.lor i (N.shiftl 0x8000 48) in
  let i := N.ldiff i (N.shiftl 0xf000 64) in
  N.lor i (N.shiftl 4 76).

(** [UUID.__str__] *)
Definition str (i : N) : string :=
  let h := hex 32 i in
  substring 0 8 h ++ "-" ++ substring 8 4 h ++ "-" ++ substring 12 4 h
    ++ "-" ++ substring 16 4 h ++ "-" ++ substring 20 12 h.

End uuid.

(** ** models.py: the rows of the two tables

    The primary key [id] is the key of the table; a row holds the other
    columns.  The columns that the endpoints can leave or set to NULL are
    optional. *)

Module models.

Module User.
Record t := Build {
  email : string;
  hashed_password : string;
  is_verified : bool;
  verification_token : option string;
  avatar_url : option string
}.

(** The column attributes of the ORM object with primary key [id]. *)
Definition attrs (id : Z) (u : t) : list (string * value) :=
  [ ("id", VInt id);
    ("email", VStr (email u));
    ("hashed_password", VStr (hashed_password u));
    ("is_verified", VBool (is_verified u));
    ("verification_token", of_opt_str (verification_token u));
    ("avatar_url", of_opt_str (avatar_url u)) ].
End User.

Module Contact.
Record t := Build {
  first_name : option string;
  last_name : option string;
  email : option string;
  phone : option string;
  birthday : date;
  additional_info : option string;
  owner_id : Z
}.

Definition attrs (id : Z) (c : t) : list (string * value) :=
  [ ("id", VInt id);
    ("first_name", of_opt_str (first_name c));
    ("last_name", of_opt_str (last_name c));
    ("email", of_opt_str (email c));
    ("phone", of_opt_str (phone c));
    ("birthday", VDate (birthday c));
    ("additional_info", of_opt_str (additional_info c));
    ("owner_id", VInt (owner_id c)) ].

(** [setattr(db_contact, key, value)] for the keys of [ContactUpdate];
    any other key is not a column and leaves the row as it is. *)
Definition setattr (c : t) (key : string) (v : option string) : t :=
  if String.eqb key "first_name" then
    Build v (last_name c) (email c) (phone c) (birthday c) (additional_info c) (owner_id c)
  else if String.eqb key "last_name" then
    Build (first_name c) v (email c) (phone c) (birthday c) (additional_info c) (owner_id c)
  else if String.eqb key "email" then
    Build (first_name c) (last_name c) v (phone c) (birthday c) (additional_info c) (owner_id c)
  else if String.eqb key "phone" then
    Build (first_name c) (last_name c) (email c) v (birthday c) (additional_info c) (owner_id c)
  else if String.eqb key "additional_info" then
    Build (first_name c) (last_name c) (email c) (phone c) (birthday c) v (owner_id c)
  else c.
End Contact.

End models.

(** ** pydantic: fields, validation from attributes *)

Inductive ftype :=
| TStr
| TInt
| TBool
| TDate
| TOptional (t : ftype).

(** A field: its name, its type and its default ([None]: required). *)
Definition field : Type := string * ftype * option value.
Definition schema : Type := list field.

(** Does the value have the field's type?  (Attributes carry the column's
    own Python type, so no conversion between types is involved.) *)
Fixpoint has_type (t : ftype) (v : value) : bool :=
  match t, v with
  | TStr, VStr _ => true
  | TInt, VInt _ => true
  | TBool, VBool _ => true
  | TDate, VDate _ => true
  | TOptional _, VNone => true
  | TOptional t', _ => has_type t' v
  | _, _ => false
  end.

(** One field read from the object: a missing attribute takes the default
    and is an error when the field is required; a present attribute must
    have the field's type. *)
Definition validate_field (obj : list (string * value)) (f : field)
  : option (string * value) :=
  let '(name, t, default) := f in
  match dict_get name obj with
  | Some v => if has_type t v then Some (name, v) else None
  | None => match default with Some v => Some (name, v) | None => None end
  end.

(** [Model.model_validate(obj, from_attributes=True)], then the model's
    fields in declaration order; [None] is a validation error. *)
Fixpoint model_validate (sch : schema) (obj : list (string * value))
  : option (list (string * value)) :=
  match sch with
  | [] => Some []
  | f :: sch' =>
      match validate_field obj f, model_validate sch' obj with
      | Some kv, Some rest => Some (kv :: rest)
      | _, _ => None
      end
  end.

(** ** schemas.py *)

Module schemas.

Definition ContactBase : schema :=
  [ ("first_name", TStr, None);
    ("last_name", TStr, None);
    ("email", TStr, None);
    ("phone", TStr, None);
    ("birthday", TDate, None);
    ("additional_info", TStr, None) ].

(** [class Contact(ContactBase)]: [id] and [owner_id] after the base's fields. *)
Definition Contact : schema :=
  (ContactBase ++ [ ("id", TInt, None); ("owner_id", TInt, None) ])%list.

Definition UserBase : schema := [ ("email", TStr, None) ].

(** [class User(UserBase)] *)
Definition User : schema :=
  (UserBase ++ [ ("id", TInt, None);
                 ("is_verified", TBool, None);
                 ("avatar_url", TOptional TStr, Some VNone) ])%list.

(** A validated [UserCreate] request body. *)
Module UserCreate.
Record t := Build { email : string; password : string }.
End UserCreate.

(** A validated [ContactCreate] request body: every field of
    [ContactBase] is required. *)
Module ContactCreate.
Record t := Build {
  first_name : string;
  last_name : string;
  email : string;
  phone : string;
  birthday : date;
  additional_info : string
}.

End ContactCreate.

(** A validated [ContactUpdate] request body.  A field is [None] when the
    body did not set it, [Some None] when it was set to null and
    [Some (Some s)] when it was set to the string [s]. *)
Module ContactUpdate.
Record t := Build {
  first_name : option (option string);
  last_name : option (option string);
  email : option (option string);
  phone : option (option string);
  additional_info : option (option string)
}.

Definition item (key : string) (f : option (option string))
  : list (string * option string) :=
  match f with Some v => [(key, v)] | None => [] end.

(** [contact.dict(exclude_unset=True).items()] *)
Definition dict (c : t) : list (string * option string) :=
  (item "first_name" (first_name c) ++ item "last_name" (last_name c)
     ++ item "email" (email c) ++ item "phone" (phone c)
     ++ item "additional_info" (additional_info c))%list.
End ContactUpdate.

End schemas.

(** ** JSON request bodies *)

(** A JSON value of a request body, as far as the string fields of the
    schemas tell values apart. *)
Inductive json :=
| JNull
| JBool (b : bool)
| JNumber (z : Z)
| JString (s : string)
| JOther.

(** An [Optional[str] = None] field read from the JSON object [body]:
    [None] is a validation error (the value is neither null nor a string),
    [Some None] an unset field. *)
Definition parse_optional_str (body : gmap string json) (key : string)
  : option (option (option string)) :=
  match body !! key with
  | None => Some None
  | Some JNull => Some (Some None)
  | Some (JString s) => Some (Some (Some s))
  | Some _ => None
  end.

(** The body of [PUT /contacts/{id}] validated as a [ContactUpdate]; keys
    that are not fields of the schema are ignored. *)
Definition parse_ContactUpdate (body : gmap string json)
  : option schemas.ContactUpdate.t :=
  match parse_optional_str body "first_name",
        parse_optional_str body "last_name",
        parse_optional_str body "email",
        parse_optional_str body "phone",
        parse_optional_str body "additional_info" with
  | Some fn, Some ln, Some em, Some ph, Some ai =>
      Some (schemas.ContactUpdate.Build fn ln em ph ai)
  | _, _, _, _, _ => None
  end.

(** ** Responses *)

Inductive content :=
| Object (fields : list (string * value))
| Array (items : list (list (string * value))).

Inductive response :=
| JSONResponse (body : content)
| HTTPException (status : Z) (detail : string)
| RequestValidationError
| Unhandled (exception : string).

Definition status_code (r : response) : Z :=
  match r with
  | JSONResponse _ => 200
  | HTTPException status _ => status
  | RequestValidationError => 422
  | Unhandled _ => 500
  end.

(** What FastAPI does with the value an endpoint returns under
    [response_model=sch]: the object is validated against the schema and
    the validated fields are sent; a failed validation is raised as
    [ResponseValidationError], which no handler catches. *)
Definition serialize_response (sch : schema) (obj : list (string * value))
  : response :=
  match model_validate sch obj with
  | Some fields => JSONResponse (Object fields)
  | None => Unhandled "ResponseValidationError"
  end.

Fixpoint validate_all (sch : schema) (objs : list (list (string * value)))
  : option (list (list (string * value))) :=
  match objs with
  | [] => Some []
  | o :: objs' =>
      match model_validate sch o, validate_all sch objs' with
      | Some fields, Some rest => Some (fields :: rest)
      | _, _ => None
      end
  end.

(** [response_model=List[sch]] *)
Definition serialize_list (sch : schema) (objs : list (list (string * value)))
  : response :=
  match validate_all sch objs with
  | Some items => JSONResponse (Array items)
  | None => Unhandled "ResponseValidationError"
  end.

(** ** The database session *)

Record Session := {
  users : gmap Z models.User.t;
  contacts : gmap Z models.Contact.t
}.

Definition empty_db : Session := {| users := ∅; contacts := ∅ |}.

(** [db.query(M).all()]: the rows with their primary keys. *)
Definition all {A} (t : gmap Z A) : list (Z * A) := map_to_list t.

(** [db.query(M).filter(P).first()] *)
Definition query_first {A} (P : A -> bool) (t : gmap Z A) : option (Z * A) :=
  List.find (fun r => P (snd r)) (all t).

(** The primary key the storage gives to a new row: one above the largest
    key of the table, and 1 in an empty table.  The properties below use
    of it only that the key is not in the table ([next_id_fresh]). *)
Definition next_id {A} (t : gmap Z A) : Z :=
  1 + foldr Z.max 0 (map fst (all t)).

Definition set_users (db : Session) (t : gmap Z models.User.t) : Session :=
  {| users := t; contacts := contacts db |}.

Definition set_contacts (db : Session) (t : gmap Z models.Contact.t) : Session :=
  {| users := users db; contacts := t |}.

(** Python's truth value of a value (the test of [if not x]). *)
Definition truthy (v : value) : bool :=
  match v with
  | VNone => false
  | VBool b => b
  | VInt z => negb (Z.eqb z 0)
  | VStr s => negb (String.eqb s "")
  | VDate _ => true
  end.

(** The fields of [OAuth2PasswordRequestForm] that [login] reads. *)
Record OAuth2PasswordRequestForm := {
  username : string;
  password : string
}.

(** ** main.py: the endpoints *)

Module main.
Section endpoints.

(** [utils.py] and [auth.py] are not part of the sources: their functions
    are parameters.  The hasher takes the salt it draws as an argument. *)
Variable hash_password : string -> string -> string.
Variable verify_password : string -> string -> bool.
Variable create_access_token : list (string * value) -> string.
Variable verify_token : string -> option (list (string * value)).

(** [POST /register/], [response_model=ContactSchema] where [ContactSchema]
    is [schemas.Contact] and [ContactModel] is [models.User].  [salt] and
    [rnd] are the random draws of the hasher and of [uuid4()].  The row is
    committed before the returned object is serialized.
    [send_verification_email] prints the token; the printed line is neither
    in the response nor in the database. *)
Definition register (salt : string) (rnd : N) (user : schemas.UserCreate.t)
    (db : Session) : response * Session :=
  let existing_user :=
    query_first (fun u => String.eqb (models.User.email u) (schemas.UserCreate.email user))
      (users db) in
  match existing_user with
  | Some _ => (HTTPException 409 "User with this email already exists", db)
  | None =>
      let hashed_password := hash_password salt (schemas.UserCreate.password user) in
      let new_user :=
        models.User.Build (schemas.UserCreate.email user) hashed_password false
          (Some (uuid.str (uuid.uuid4 rnd))) None in
      let id := next_id (users db) in
      let db := set_users db (<[id := new_user]> (users db)) in
      (serialize_response schemas.Contact (models.User.attrs id new_user), db)
  end.

(** [GET /verify-email/] *)
Definition verify_email (token : string) (db : Session) : response * Session :=
  let user :=
    query_first
      (fun u => match models.User.verification_token u with
                | Some t => String.eqb t token
                | None => false
                end)
      (users db) in
  match user with
  | Some (id, u) =>
      let u := models.User.Build (models.User.email u) (models.User.hashed_password u)
                 true None (models.User.avatar_url u) in
      (JSONResponse (Object [("msg", VStr "Email verified successfully")]),
       set_users db (<[id := u]> (users db)))
  | None => (HTTPException 400 "Invalid token", db)
  end.

(** [POST /token] *)
Definition login (form_data : OAuth2PasswordRequestForm) (db : Session)
  : response * Session :=
  let user :=
    query_first (fun u => String.eqb (models.User.email u) (username form_data))
      (users db) in
  match user with
  | None => (HTTPException 401 "Incorrect email or password", db)
  | Some (_, u) =>
      if negb (verify_password (password form_data) (models.User.hashed_password u))
      then (HTTPException 401 "Incorrect email or password", db)
      else if negb (models.User.is_verified u)
      then (HTTPException 401 "Email not verified", db)
      else
        let access_token := create_access_token [("sub", VStr (models.User.email u))] in
        (JSONResponse (Object [("access_token", VStr access_token);
                               ("token_type", VStr "bearer")]), db)
  end.

(** [get_current_user]: the user of a bearer token, or the error raised.
    A token that [verify_token] rejects is answered with 401. *)
Definition get_current_user (token : string) (db : Session)
  : response + (Z * models.User.t) :=
  match verify_token token with
  | None => inl (HTTPException 401 "Invalid token")
  | Some payload =>
      match dict_get "sub" payload with
      | None => inl (HTTPException 401 "Invalid token")
      | Some user_email =>
          if negb (truthy user_email) then inl (HTTPException 401 "Invalid token")
          else
            let user :=
              query_first
                (fun u => match user_email with
                          | VStr e => String.eqb (models.User.email u) e
                          | _ => false
                          end)
                (users db) in
            match user with
            | None => inl (HTTPException 404 "User not found")
            | Some u => inr u
            end
      end
  end.

(** [POST /contacts/], after its dependencies.  A [ContactCreate] has all
    six fields set, so the [Contact] built from its [dict(exclude_unset=True)]
    and [owner_id=current_user.id] has every column filled. *)
Definition create_contact (contact : schemas.ContactCreate.t) (db : Session)
    (current_user : Z * models.User.t) : response * Session :=
  let db_contact :=
    models.Contact.Build
      (Some (schemas.ContactCreate.first_name contact))
      (Some (schemas.ContactCreate.last_name contact))
      (Some (schemas.ContactCreate.email contact))
      (Some (schemas.ContactCreate.phone contact))
      (schemas.ContactCreate.birthday contact)
      (Some (schemas.ContactCreate.additional_info contact))
      (fst current_user) in
  let id := next_id (contacts db) in
  let db := set_contacts db (<[id := db_contact]> (contacts db)) in
  (serialize_response schemas.Contact (models.Contact.attrs id db_contact), db).

(** [GET /contacts/] *)
Definition get_contacts (db : Session) : response * Session :=
  (serialize_list schemas.Contact
     (map (fun r => models.Contact.attrs (fst r) (snd r)) (all (contacts db))),
   db).

(** [GET /contacts/{contact_id}] *)
Definition get_contact (contact_id : Z) (db : Session) : response * Session :=
  match contacts db !! contact_id with
  | None => (HTTPException 404 "Contact not found", db)
  | Some contact =>
      (serialize_response schemas.Contact (models.Contact.attrs contact_id contact), db)
  end.

(** [PUT /contacts/{contact_id}] *)
Definition update_contact (contact_id : Z) (contact : schemas.ContactUpdate.t)
    (db : Session) : response * Session :=
  match contacts db !! contact_id with
  | None => (HTTPException 404 "Contact not found", db)
  | Some db_contact =>
      let db_contact :=
        fold_left (fun c kv => models.Contact.setattr c (fst kv) (snd kv))
          (schemas.ContactUpdate.dict contact) db_contact in
      let db := set_contacts db (<[contact_id := db_contact]> (contacts db)) in
      (serialize_response schemas.Contact (models.Contact.attrs contact_id db_contact), db)
  end.

(** [DELETE /contacts/{contact_id}] *)
Definition delete_contact (contact_id : Z) (db : Session) : response * Session :=
  match contacts db !! contact_id with
  | None => (HTTPException 404 "Contact not found", db)
  | Some _ =>
      (JSONResponse (Object [("ok", VBool true)]),
       set_contacts db (delete contact_id (contacts db)))
  end.

(** [PUT /users/avatar/], after its dependencies.  [upload] is what
    [cloudinary.uploader.upload] answers: the url of the stored image, or
    [None] when the call raises. *)
Definition update_avatar (upload : option string) (db : Session)
    (current_user : Z * models.User.t) : response * Session :=
  match upload with
  | None => (Unhandled "cloudinary.exceptions.Error", db)
  | Some url =>
      let '(id, u) := current_user in
      let u := models.User.Build (models.User.email u) (models.User.hashed_password u)
                 (models.User.is_verified u) (models.User.verification_token u)
                 (Some url) in
      (JSONResponse (Object [("msg", VStr "Avatar updated"); ("avatar_url", VStr url)]),
       set_users db (<[id := u]> (users db)))
  end.

(** *** The routes: an endpoint behind its dependencies *)

Inductive request :=
| POST_register (salt : string) (rnd : N) (user : schemas.UserCreate.t)
| GET_verify_email (token : string)
| POST_token (form_data : OAuth2PasswordRequestForm)
| POST_contacts (limited : bool) (bearer : string) (contact : schemas.ContactCreate.t)
| GET_contacts
| GET_contact (contact_id : Z)
| PUT_contact (contact_id : Z) (body : gmap string json)
| DELETE_contact (contact_id : Z)
| PUT_users_avatar (bearer : string) (upload : option string).

(** One request served on the database [db].  [limited] says whether the
    rate limiter of [POST /contacts/] turns the request down. *)
Definition handle (req : request) (db : Session) : response * Session :=
  match req with
  | POST_register salt rnd user => register salt rnd user db
  | GET_verify_email token => verify_email token db
  | POST_token form_data => login form_data db
  | POST_contacts limited bearer contact =>
      if limited then (HTTPException 429 "Too Many Requests", db)
      else match get_current_user bearer db with
           | inl err => (err, db)
           | inr current_user => create_contact contact db current_user
           end
  | GET_contacts => get_contacts db
  | GET_contact contact_id => get_contact contact_id db
  | PUT_contact contact_id body =>
      match parse_ContactUpdate body with
      | None => (RequestValidationError, db)
      | Some contact => update_contact contact_id contact db
      end
  | DELETE_contact contact_id => delete_contact contact_id db
  | PUT_users_avatar bearer upload =>
      match get_current_user bearer db with
      | inl err => (err, db)
      | inr current_user => update_avatar upload db current_user
      end
  end.

(** The databases the service can be in: the empty one, and the one after
    any request served on a reachable one. *)
Inductive reachable : Session -> Prop :=
| reachable_empty : reachable empty_db
| reachable_step req db : reachable db -> reachable (snd (handle req db)).

End endpoints.
End main.

(** ** Sample collaborators

    A hasher, a verifier and a token service to run the endpoints on
    concrete requests: the hash is the salt, a [$] and the password; the
    token is the subject after [jwt:]. *)

Module sample.

Definition hash_password (salt plain : string) : string := salt ++ "$" ++ plain.

Definition verify_password (plain hashed : string) : bool :=
  match index 0 "$" hashed with
  | Some n => String.eqb (substring (S n) (String.length hashed - S n) hashed) plain
  | None => false
  end.

Definition create_access_token (data : list (string * value)) : string :=
  match dict_get "sub" data with
  | Some (VStr s) => "jwt:" ++ s
  | _ => "jwt:"
  end.

Definition verify_token (token : string) : option (list (string * value)) :=
  if String.prefix "jwt:" token
  then Some [("sub", VStr (substring 4 (String.length token - 4) token))]
  else None.

Definition testuser : schemas.UserCreate.t :=
  schemas.UserCreate.Build "testuser@example.com" "testpassword".

Definition john : schemas.ContactCreate.t :=
  schemas.ContactCreate.Build "John" "Doe" "johndoe@example.com" "123456789"
    (Date 1990 1 1) "friend".


(** The service with the sample collaborators, and a run of requests. *)
Definition handle : main.request -> Session -> response * Session :=
  main.handle hash_password verify_password create_access_token verify_token.

Definition run (reqs : list main.request) (db : Session) : Session :=
  fold_left (fun db req => snd (handle req db)) reqs db.

(** The token that the registration of [testuser] issues. *)
Definition token : string := uuid.str (uuid.uuid4 12345).

Definition form : OAuth2PasswordRequestForm :=
  {| username := "testuser@example.com"; password := "testpassword" |}.

(** Register [testuser] and verify the email. *)
Definition signup : list main.request :=
  [ main.POST_register "salt" 12345 testuser; main.GET_verify_email token ].

Definition db_verified : Session := run signup empty_db.

(** Then log in and create the contact [john] with the token of the login. *)
Definition db_john : Session :=
  run [ main.POST_token form;
        main.POST_contacts false "jwt:testuser@example.com" john ] db_verified.

(** The row of [john]. *)
Definition john_row : models.Contact.t :=
  models.Contact.Build (Some "John") (Some "Doe") (Some "johndoe@example.com")
    (Some "123456789") (Date 1990 1 1) (Some "friend") 1.

(** Then set the first name of the contact to null. *)
Definition null_first_name : gmap string json := {[ "first_name" := JNull ]}.

Definition db_null : Session := run [ main.PUT_contact 1 null_first_name ] db_john.

(** The databases that the sample service can reach. *)
Definition reachable : Session -> Prop :=
  main.reachable hash_password verify_password create_access_token verify_token.

(** The rows of [testuser] in [db_verified] and of the contact in [db_null]. *)
Definition testuser_row : models.User.t :=
  models.User.Build "testuser@example.com" "salt$testpassword" true None None.

Definition null_row : models.Contact.t :=
  models.Contact.Build None (Some "Doe") (Some "johndoe@example.com")
    (Some "123456789") (Date 1990 1 1) (Some "friend") 1.

(** An update of the last name only. *)
Definition smith : schemas.ContactUpdate.t :=
  schemas.ContactUpdate.Build None (Some (Some "Smith")) None None None.

(** The bearer token of [testuser] and its payload. *)
Definition bearer : string := "jwt:testuser@example.com".

Definition payload : list (string * value) := [("sub", VStr "testuser@example.com")].

(** The requests after the signup: login, a contact, its first name set
    to null, an avatar, a read and a delete that find nothing. *)
Definition later : list main.request :=
  [ main.POST_token form;
    main.POST_contacts false bearer john;
    main.PUT_contact 1 null_first_name;
    main.PUT_users_avatar bearer (Some "http://res.cloudinary.com/avatars/1.png");
    main.GET_contact 7;
    main.DELETE_contact 7 ].

(** The login of [testuser] with a wrong password. *)
Definition wrong_form : OAuth2PasswordRequestForm :=
  {| username := "testuser@example.com"; password := "wrong" |}.

(** An update that sets the first name to null. *)
Definition null_update : schemas.ContactUpdate.t :=
  schemas.ContactUpdate.Build (Some None) None None None None.

End sample.

(** ** The vocabulary of the properties *)

(** No user of the table has the email [e]. *)
Definition fresh_email (e : string) (db : Session) : Prop :=
  forall id u, users db !! id = Some u -> models.User.email u <> e.

(** The uniqueness constraint on [users.email]. *)
Definition unique_emails (db : Session) : Prop :=
  forall i j u v,
    users db !! i = Some u -> users db !! j = Some v ->
    models.User.email u = models.User.email v -> i = j.

(** The row [register] stores for a request. *)
Definition registered (hash_password : string -> string -> string)
    (salt : string) (rnd : N) (user : schemas.UserCreate.t) : models.User.t :=
  models.User.Build (schemas.UserCreate.email user)
    (hash_password salt (schemas.UserCreate.password user))
    false (Some (uuid.str (uuid.uuid4 rnd))) None.

(** No user of the table holds the verification token [tok]. *)
Definition token_unheld (tok : string) (db : Session) : Prop :=
  forall id u, users db !! id = Some u -> models.User.verification_token u <> Some tok.

(** The row of [u] after [verify_email]. *)
Definition verified (u : models.User.t) : models.User.t :=
  models.User.Build (models.User.email u) (models.User.hashed_password u)
    true None (models.User.avatar_url u).

(** The filter of [verify_email]: the row holds the token. *)
Definition has_token (token : string) (u : models.User.t) : bool :=
  match models.User.verification_token u with
  | Some t => String.eqb t token
  | None => false
  end.

(** The row of [u] after [update_avatar]. *)
Definition with_avatar (url : string) (u : models.User.t) : models.User.t :=
  models.User.Build (models.User.email u) (models.User.hashed_password u)
    (models.User.is_verified u) (models.User.verification_token u) (Some url).

(** The invariant of a user row: unverified with a non-empty token, or
    verified with none. *)
Definition user_inv (u : models.User.t) : Prop :=
  (models.User.is_verified u = false ->
   exists t, models.User.verification_token u = Some t /\ t <> "") /\
  (models.User.is_verified u = true -> models.User.verification_token u = None).

(** The contact view of a row whose string columns are all filled. *)
Definition contact_view (id : Z) (fn ln em ph : string) (bd : date) (ai : string)
    (owner : Z) : content :=
  Object [ ("first_name", VStr fn); ("last_name", VStr ln); ("email", VStr em);
           ("phone", VStr ph); ("birthday", VDate bd); ("additional_info", VStr ai);
           ("id", VInt id); ("owner_id", VInt owner) ].

(** The value of a column after an update that set the field to [f]. *)
Definition overwritten (f : option (option string)) (prior : option string)
  : option string :=
  match f with Some v => v | None => prior end.

(** A contact row with a NULL in one of its string columns. *)
Definition has_null (c : models.Contact.t) : Prop :=
  models.Contact.first_name c = None \/ models.Contact.last_name c = None \/
  models.Contact.email c = None \/ models.Contact.phone c = None \/
  models.Contact.additional_info c = None.

Section runs.
Variable hash_password : string -> string -> string.
Variable verify_password : string -> string -> bool.
Variable create_access_token : list (string * value) -> string.
Variable verify_token : string -> option (list (string * value)).

(** The database after the requests [reqs], served in order. *)
Definition serve (reqs : list main.request) (db : Session) : Session :=
  fold_left
    (fun db req =>
       snd (main.handle hash_password verify_password create_access_token verify_token
              req db))
    reqs db.

End runs.

(** The update sets one of its fields to null. *)
Definition supplies_null (contact : schemas.ContactUpdate.t) : Prop :=
  schemas.ContactUpdate.first_name contact = Some None \/
  schemas.ContactUpdate.last_name contact = Some None \/
  schemas.ContactUpdate.email contact = Some None \/
  schemas.ContactUpdate.phone contact = Some None \/
  schemas.ContactUpdate.additional_info contact = Some None.

(** The [ContactUpdate] of a body that sets no field. *)
Definition no_update : schemas.ContactUpdate.t :=
  schemas.ContactUpdate.Build None None None None None.

(** The names of the fields of [ContactUpdate]. *)
Definition contact_fields : list string :=
  [ "first_name"; "last_name"; "email"; "phone"; "additional_info" ].

(** What identifies and authenticates a user: every column but the avatar. *)
Definition credentials (u : models.User.t)
  : string * string * bool * option string :=
  (models.User.email u, models.User.hashed_password u,
   models.User.is_verified u, models.User.verification_token u).

(** The foreign key [contacts.owner_id -> users.id]: the owner of every
    contact is a user of the table. *)
Definition owners_exist (db : Session) : Prop :=
  forall id c, contacts db !! id = Some c ->
    is_Some (users db !! models.Contact.owner_id c).

(** A response with a 4xx status. *)
Definition client_error (r : response) : Prop :=
  400 <= status_code r < 500.

(** The keys of the JSON objects of a response body. *)
Definition body_keys (r : response) : list string :=
  match r with
  | JSONResponse (Object fields) => map fst fields
  | JSONResponse (Array items) => concat (map (map fst) items)
  | _ => []
  end.

(** The names of the fields of a schema. *)
Definition field_names (sch : schema) : list string :=
  map (fun f : field => fst (fst f)) sch.

(** ** Queries on a table *)

Section tables.
Context {A : Type}.
Implicit Types (P : A -> bool) (t : gmap Z A).

Lemma query_first_Some P t i x :
  query_first P t = Some (i, x) -> t !! i = Some x /\ P x = true.
Proof.
  unfold query_first, all. intros H.
  apply find_some in H as [Hin HP]. split; [|exact HP].
  apply elem_of_map_to_list, list_elem_of_In. exact Hin.
Qed.

Lemma query_first_None P t :
  query_first P t = None <-> (forall i x, t !! i = Some x -> P x = false).
Proof.
  unfold query_first, all. split.
  - intros H i x Hix.
    apply (find_none _ _ H (i, x)).
    apply list_elem_of_In, elem_of_map_to_list. exact Hix.
  - intros H. destruct (find _ _) as [[i x]|] eqn:E; [|reflexivity].
    apply find_some in E as [Hin HP]. simpl in HP.
    apply list_elem_of_In, elem_of_map_to_list in Hin.
    rewrite (H i x Hin) in HP. discriminate.
Qed.

Lemma query_first_unique P t i x :
  t !! i = Some x -> P x = true ->
  (forall j y, t !! j = Some y -> P y = true -> j = i) ->
  query_first P t = Some (i, x).
Proof.
  intros Hix HP Huniq.
  destruct (query_first P t) as [[j y]|] eqn:E.
  - apply query_first_Some in E as [Hjy HPy].
    assert (j = i) by eauto. subst j. congruence.
  - rewrite query_first_None in E. rewrite (E i x Hix) in HP. discriminate.
Qed.

Lemma le_foldr_max (l : list Z) k : In k l -> k <= foldr Z.max 0 l.
Proof.
  induction l as [|a l IH]; simpl; [tauto|].
  intros [->|Hin]; [lia|]. specialize (IH Hin). lia.
Qed.

Lemma lookup_lt_next_id t i x : t !! i = Some x -> i < next_id t.
Proof.
  intros Hix. unfold next_id, all.
  assert (i <= foldr Z.max 0 (map fst (map_to_list t))); [|lia].
  apply le_foldr_max.
  apply (in_map fst _ (i, x)), list_elem_of_In, elem_of_map_to_list. exact Hix.
Qed.

(** The key of a new row is not in use. *)
Lemma next_id_fresh t : t !! next_id t = None.
Proof.
  destruct (t !! next_id t) as [x|] eqn:E; [|reflexivity].
  apply lookup_lt_next_id in E. lia.
Qed.

End tables.

(** [str(uuid4())] is never the empty string. *)
Lemma uuid_str_nonempty i : uuid.str i <> "".
Proof.
  unfold uuid.str. generalize (uuid.hex 32 i). intros h.
  destruct (substring 0 8 h); discriminate.
Qed.

(** ** Registration *)

Section registration.
Variable hash_password : string -> string -> string.
Implicit Types (user : schemas.UserCreate.t) (db : Session).

Lemma email_query_None e db :
  query_first (fun u => String.eqb (models.User.email u) e) (users db) = None
  <-> fresh_email e db.
Proof.
  rewrite query_first_None. unfold fresh_email.
  split; intros H id u Hu; specialize (H id u Hu).
  - apply String.eqb_neq. exact H.
  - apply String.eqb_neq. exact H.
Qed.

(** What [register] does with a fresh email: the row is stored under the
    next key and the returned object goes through the response model. *)
Lemma register_fresh salt rnd user db :
  fresh_email (schemas.UserCreate.email user) db ->
  main.register hash_password salt rnd user db =
    (serialize_response schemas.Contact
       (models.User.attrs (next_id (users db)) (registered hash_password salt rnd user)),
     set_users db (<[next_id (users db) := registered hash_password salt rnd user]> (users db))).
Proof.
  intros Hfresh. unfold main.register.
  apply email_query_None in Hfresh. rewrite Hfresh. reflexivity.
Qed.

(** What [register] does with an email that is taken. *)
Lemma register_taken salt rnd user db id u :
  users db !! id = Some u ->
  models.User.email u = schemas.UserCreate.email user ->
  main.register hash_password salt rnd user db =
    (HTTPException 409 "User with this email already exists", db).
Proof.
  intros Hu He. unfold main.register.
  destruct (query_first _ _) as [[j v]|] eqn:E; [reflexivity|].
  apply email_query_None in E. destruct (E id u Hu He).
Qed.

(** A [models.User] never validates as a [schemas.Contact]: it has no
    [first_name]. *)
Lemma user_is_no_contact id (u : models.User.t) :
  model_validate schemas.Contact (models.User.attrs id u) = None.
Proof. reflexivity. Qed.

(** Under [schemas.User] the same object gives the user view. *)
Lemma user_view id (u : models.User.t) :
  serialize_response schemas.User (models.User.attrs id u) =
    JSONResponse (Object [ ("email", VStr (models.User.email u));
                           ("id", VInt id);
                           ("is_verified", VBool (models.User.is_verified u));
                           ("avatar_url", of_opt_str (models.User.avatar_url u)) ]).
Proof. destruct u as [e h v t [a|]]; reflexivity. Qed.

(** C1, on the code: for a fresh email [POST /register/] stores the new
    user, unverified, but its answer is not the 200 of the claim: the
    returned user fails the route's response model [schemas.Contact], and
    the request ends in a server error (status 500). *)
Theorem register_fresh_email_fails_response_model salt rnd user db :
  fresh_email (schemas.UserCreate.email user) db ->
  let '(resp, db') := main.register hash_password salt rnd user db in
  resp = Unhandled "ResponseValidationError" /\
  status_code resp = 500 /\
  users db' !! next_id (users db) = Some (registered hash_password salt rnd user) /\
  models.User.is_verified (registered hash_password salt rnd user) = false.
Proof.
  intros Hfresh. rewrite (register_fresh _ _ _ _ Hfresh).
  unfold serialize_response. rewrite user_is_no_contact. simpl.
  repeat split. apply lookup_insert_eq.
Qed.

End registration.

Lemma fresh_email_empty e : fresh_email e empty_db.
Proof. intros id u Hu. simpl in Hu. rewrite lookup_empty in Hu. discriminate. Qed.

Section conflict.
Variable hash_password : string -> string -> string.
Implicit Types (db : Session).

(** C7: after a registration with the email [e], a second registration
    with [e] (whatever its password) fails with 409 and changes nothing,
    and the table holds exactly one user with the email [e]. *)
Theorem register_twice_conflict salt1 rnd1 salt2 rnd2 e p1 p2 db :
  unique_emails db ->
  let db1 :=
    snd (main.register hash_password salt1 rnd1 (schemas.UserCreate.Build e p1) db) in
  main.register hash_password salt2 rnd2 (schemas.UserCreate.Build e p2) db1 =
    (HTTPException 409 "User with this email already exists", db1) /\
  exists id u,
    users db1 !! id = Some u /\ models.User.email u = e /\
    forall j v, users db1 !! j = Some v -> models.User.email v = e -> j = id.
Proof.
  intros Huniq. simpl.
  destruct (query_first (fun u => String.eqb (models.User.email u) e) (users db))
    as [[id u]|] eqn:E.
  - (* the first call already fails *)
    apply query_first_Some in E as [Hu He]. apply String.eqb_eq in He.
    rewrite (register_taken hash_password salt1 rnd1
               (schemas.UserCreate.Build e p1) db id u Hu He). simpl.
    split; [exact (register_taken hash_password salt2 rnd2
                     (schemas.UserCreate.Build e p2) db id u Hu He)|].
    exists id, u. repeat split; [exact Hu|exact He|].
    intros j v Hv Hve. apply (Huniq j id v u Hv Hu). congruence.
  - apply (email_query_None e db) in E.
    rewrite (register_fresh hash_password salt1 rnd1 (schemas.UserCreate.Build e p1) db E).
    simpl. set (id := next_id (users db)).
    set (u := registered hash_password salt1 rnd1 (schemas.UserCreate.Build e p1)).
    assert (Hid : <[id := u]> (users db) !! id = Some u) by apply lookup_insert_eq.
    split.
    + apply (register_taken hash_password salt2 rnd2
               (schemas.UserCreate.Build e p2) _ id u); [exact Hid|reflexivity].
    + exists id, u. repeat split; [exact Hid|].
      intros j v Hv Hve. destruct (decide (j = id)) as [->|Hne]; [reflexivity|].
      rewrite lookup_insert_ne in Hv by congruence.
      destruct (E j v Hv Hve).
Qed.

End conflict.

Lemma unique_emails_empty : unique_emails empty_db.
Proof. intros i j u v Hu. simpl in Hu. rewrite lookup_empty in Hu. discriminate. Qed.

(** ** Email verification *)

Lemma has_token_true token u :
  has_token token u = true <-> models.User.verification_token u = Some token.
Proof.
  unfold has_token. destruct (models.User.verification_token u) as [t|].
  - rewrite String.eqb_eq. split; congruence.
  - split; discriminate.
Qed.

Lemma has_token_false token u :
  has_token token u = false <-> models.User.verification_token u <> Some token.
Proof.
  rewrite <- has_token_true. destruct (has_token token u); split; congruence.
Qed.

Lemma verify_email_unheld token db :
  token_unheld token db ->
  main.verify_email token db = (HTTPException 400 "Invalid token", db).
Proof.
  intros Hun. unfold main.verify_email.
  change (fun u => match models.User.verification_token u with
                   | Some t => String.eqb t token
                   | None => false
                   end) with (has_token token).
  assert (E : query_first (has_token token) (users db) = None).
  { apply query_first_None. intros id u Hu. apply has_token_false. eauto. }
  rewrite E. reflexivity.
Qed.

Lemma verify_email_held token db id u :
  users db !! id = Some u ->
  models.User.verification_token u = Some token ->
  (forall j v, users db !! j = Some v ->
               models.User.verification_token v = Some token -> j = id) ->
  main.verify_email token db =
    (JSONResponse (Object [("msg", VStr "Email verified successfully")]),
     set_users db (<[id := verified u]> (users db))).
Proof.
  intros Hu Ht Huniq. unfold main.verify_email.
  change (fun u => match models.User.verification_token u with
                   | Some t => String.eqb t token
                   | None => false
                   end) with (has_token token).
  rewrite (query_first_unique (has_token token) (users db) id u Hu).
  - reflexivity.
  - apply has_token_true. exact Ht.
  - intros j v Hv Hp. apply has_token_true in Hp. eauto.
Qed.

Lemma token_unheld_insert tok db id v :
  token_unheld tok db ->
  models.User.verification_token v <> Some tok ->
  token_unheld tok (set_users db (<[id := v]> (users db))).
Proof.
  intros Hun Hv j w Hw. simpl in Hw.
  destruct (decide (id = j)) as [->|Hne].
  - rewrite lookup_insert_eq in Hw. congruence.
  - rewrite lookup_insert_ne in Hw by exact Hne. eauto.
Qed.

Lemma token_unheld_empty tok : token_unheld tok empty_db.
Proof. intros id u Hu. simpl in Hu. rewrite lookup_empty in Hu. discriminate. Qed.

Section verification.
Variable hash_password : string -> string -> string.

(** C3: a token that no user holds is answered with 400 Invalid token.
    The token issued by a registration (fresh email, token not held by
    another user) verifies once: the call answers 200 and leaves the user
    verified with no token; the same call again is answered with 400. *)
Theorem verify_email_once salt rnd user db db0 garbage :
  token_unheld garbage db0 ->
  fresh_email (schemas.UserCreate.email user) db ->
  token_unheld (uuid.str (uuid.uuid4 rnd)) db ->
  let tok := uuid.str (uuid.uuid4 rnd) in
  let id := next_id (users db) in
  let db1 := snd (main.register hash_password salt rnd user db) in
  let row :=
    models.User.Build (schemas.UserCreate.email user)
      (hash_password salt (schemas.UserCreate.password user)) true None None in
  let db2 := set_users db1 (<[id := row]> (users db1)) in
  main.verify_email garbage db0 = (HTTPException 400 "Invalid token", db0) /\
  users db1 !! id = Some (registered hash_password salt rnd user) /\
  main.verify_email tok db1 =
    (JSONResponse (Object [("msg", VStr "Email verified successfully")]), db2) /\
  users db2 !! id = Some row /\
  main.verify_email tok db2 = (HTTPException 400 "Invalid token", db2).
Proof.
  intros Hgarbage Hfresh Hun. cbv zeta.
  rewrite (register_fresh hash_password salt rnd user db Hfresh). simpl snd.
  set (id := next_id (users db)).
  set (u := registered hash_password salt rnd user).
  set (tok := uuid.str (uuid.uuid4 rnd)).
  assert (Hid : <[id := u]> (users db) !! id = Some u) by apply lookup_insert_eq.
  split; [apply verify_email_unheld; exact Hgarbage|].
  split; [exact Hid|].
  split; [|split].
  - apply (verify_email_held tok (set_users db (<[id := u]> (users db))) id u);
      [exact Hid|reflexivity|].
    intros j v Hv Ht. simpl in Hv.
    destruct (decide (j = id)) as [->|Hne]; [reflexivity|].
    rewrite lookup_insert_ne in Hv by congruence.
    destruct (Hun j v Hv Ht).
  - simpl. apply lookup_insert_eq.
  - apply verify_email_unheld.
    intros j v Hv. simpl in Hv.
    destruct (decide (id = j)) as [->|Hne].
    + rewrite lookup_insert_eq in Hv. injection Hv as <-. simpl. discriminate.
    + rewrite !lookup_insert_ne in Hv by exact Hne. eauto.
Qed.

End verification.

(** ** The states of a user *)

Section invariants.
Variable hash_password : string -> string -> string.
Variable verify_password : string -> string -> bool.
Variable create_access_token : list (string * value) -> string.
Variable verify_token : string -> option (list (string * value)).

Abbreviation handle :=
  (main.handle hash_password verify_password create_access_token verify_token).
Abbreviation reachable :=
  (main.reachable hash_password verify_password create_access_token verify_token).

(** The user that [get_current_user] resolves is a row of the table. *)
Lemma get_current_user_lookup token db id u :
  main.get_current_user verify_token token db = inr (id, u) ->
  users db !! id = Some u.
Proof.
  unfold main.get_current_user. intros H.
  destruct (verify_token token) as [payload|]; [|discriminate].
  destruct (dict_get "sub" payload) as [user_email|]; [|discriminate].
  destruct (negb (truthy user_email)); [discriminate|].
  destruct (query_first _ _) as [[j v]|] eqn:E; [|discriminate].
  injection H as -> ->. apply query_first_Some in E as [E _]. exact E.
Qed.

(** The users table after a request: unchanged, or one row written, which
    is a new registration, a verified row or a row with a new avatar. *)
Lemma handle_users req db :
  users (snd (handle req db)) = users db \/
  exists id row,
    users (snd (handle req db)) = <[id := row]> (users db) /\
    ((exists salt rnd user,
        row = registered hash_password salt rnd user /\
        fresh_email (schemas.UserCreate.email user) db /\
        id = next_id (users db)) \/
     (exists u, users db !! id = Some u /\ row = verified u) \/
     (exists u url, users db !! id = Some u /\ row = with_avatar url u)).
Proof.
  destruct req as [salt rnd user|token|form_data|limited bearer contact| |cid|cid body|cid
                  |bearer upload]; simpl.
  - unfold main.register.
    destruct (query_first _ _) as [[j v]|] eqn:E; [left; reflexivity|].
    right. exists (next_id (users db)), (registered hash_password salt rnd user).
    split; [reflexivity|]. left. exists salt, rnd, user.
    apply email_query_None in E. auto.
  - unfold main.verify_email.
    destruct (query_first _ _) as [[j v]|] eqn:E; [|left; reflexivity].
    right. exists j, (verified v). split; [reflexivity|].
    right. left. exists v. apply query_first_Some in E as [E _]. auto.
  - left. unfold main.login.
    destruct (query_first _ _) as [[j v]|]; [|reflexivity].
    destruct (negb _); [reflexivity|]. destruct (negb _); reflexivity.
  - left. destruct limited; [reflexivity|].
    destruct (main.get_current_user _ _ _) as [err|cu]; reflexivity.
  - left. reflexivity.
  - left. unfold main.get_contact. destruct (contacts db !! cid); reflexivity.
  - left. destruct (parse_ContactUpdate body); [|reflexivity].
    unfold main.update_contact. destruct (contacts db !! cid); reflexivity.
  - left. unfold main.delete_contact. destruct (contacts db !! cid); reflexivity.
  - destruct (main.get_current_user _ _ _) as [err|[j v]] eqn:E; [left; reflexivity|].
    apply get_current_user_lookup in E.
    destruct upload as [url|]; [|left; reflexivity].
    right. exists j, (with_avatar url v). split; [reflexivity|].
    right. right. exists v, url. auto.
Qed.

Lemma handle_preserves_user_inv req db :
  (forall id u, users db !! id = Some u -> user_inv u) ->
  forall id u, users (snd (handle req db)) !! id = Some u -> user_inv u.
Proof.
  intros Hinv id u.
  destruct (handle_users req db) as [->|(j & row & -> & Hrow)]; [apply Hinv|].
  destruct (decide (j = id)) as [->|Hne].
  - rewrite lookup_insert_eq. intros [= <-].
    destruct Hrow as [(salt & rnd & user & -> & _)|[(v & Hv & ->)|(v & url & Hv & ->)]].
    + split; simpl; [|discriminate].
      intros _. eexists. split; [reflexivity|apply uuid_str_nonempty].
    + split; simpl; [discriminate|reflexivity].
    + exact (Hinv id v Hv).
  - rewrite lookup_insert_ne by exact Hne. apply Hinv.
Qed.

(** C2: in every database the service can reach, an unverified user has a
    non-empty verification token and a verified user has none. *)
Theorem reachable_user_invariant db :
  reachable db ->
  forall id u, users db !! id = Some u ->
    (models.User.is_verified u = false ->
     exists t, models.User.verification_token u = Some t /\ t <> "") /\
    (models.User.is_verified u = true -> models.User.verification_token u = None).
Proof.
  induction 1 as [|req db Hreach IH].
  - intros id u Hu. simpl in Hu. rewrite lookup_empty in Hu. discriminate.
  - exact (handle_preserves_user_inv req db IH).
Qed.

Lemma handle_preserves_unique_emails req db :
  unique_emails db -> unique_emails (snd (handle req db)).
Proof.
  intros Huniq. unfold unique_emails.
  destruct (handle_users req db) as [->|(k & row & -> & Hrow)]; [exact Huniq|].
  assert (Hother : forall j v, j <> k -> users db !! j = Some v ->
                               models.User.email v = models.User.email row -> False).
  { intros j v Hne Hv He.
    destruct Hrow as [(salt & rnd & user & -> & Hfresh & _)
                     |[(w & Hw & ->)|(w & url & Hw & ->)]].
    - exact (Hfresh j v Hv He).
    - apply Hne. exact (Huniq j k v w Hv Hw He).
    - apply Hne. exact (Huniq j k v w Hv Hw He). }
  intros i j u v Hu Hv He.
  destruct (decide (i = k)) as [->|Hi], (decide (j = k)) as [->|Hj];
    try reflexivity.
  - rewrite lookup_insert_eq in Hu. rewrite lookup_insert_ne in Hv by congruence.
    injection Hu as <-. destruct (Hother j v Hj Hv). congruence.
  - rewrite lookup_insert_eq in Hv. rewrite lookup_insert_ne in Hu by congruence.
    injection Hv as <-. destruct (Hother i u Hi Hu He).
  - rewrite lookup_insert_ne in Hu by congruence.
    rewrite lookup_insert_ne in Hv by congruence.
    exact (Huniq i j u v Hu Hv He).
Qed.

(** Emails are unique in every reachable database. *)
Lemma reachable_unique_emails db : reachable db -> unique_emails db.
Proof.
  induction 1 as [|req db Hreach IH].
  - apply unique_emails_empty.
  - apply handle_preserves_unique_emails. exact IH.
Qed.

End invariants.

(** ** Login *)

Section authentication.
Variable verify_password : string -> string -> bool.
Variable create_access_token : list (string * value) -> string.

Abbreviation login := (main.login verify_password create_access_token).

(** [login] in terms of the user the query finds. *)
Lemma login_found form db id u :
  query_first (fun u => String.eqb (models.User.email u) (username form)) (users db)
    = Some (id, u) ->
  login form db =
    if negb (verify_password (password form) (models.User.hashed_password u))
    then (HTTPException 401 "Incorrect email or password", db)
    else if negb (models.User.is_verified u)
    then (HTTPException 401 "Email not verified", db)
    else (JSONResponse
            (Object [("access_token",
                      VStr (create_access_token [("sub", VStr (models.User.email u))]));
                     ("token_type", VStr "bearer")]), db).
Proof. intros E. unfold main.login. rewrite E. reflexivity. Qed.

(** C4: with unique emails, [login] answers 401 exactly when no user has
    the email, or the user with the email has a hash that the password
    does not verify against, or is not verified; any other answer is the
    200 with the token made for the subject [username], the user's email. *)
Theorem login_unauthorized_iff form db :
  unique_emails db ->
  (status_code (fst (login form db)) = 401 <->
     fresh_email (username form) db \/
     exists id u,
       users db !! id = Some u /\ models.User.email u = username form /\
       (verify_password (password form) (models.User.hashed_password u) = false \/
        models.User.is_verified u = false)) /\
  (status_code (fst (login form db)) <> 401 ->
     (exists id u, users db !! id = Some u /\ models.User.email u = username form) /\
     login form db =
       (JSONResponse
          (Object [("access_token",
                    VStr (create_access_token [("sub", VStr (username form))]));
                   ("token_type", VStr "bearer")]), db)).
Proof.
  intros Huniq.
  destruct (query_first (fun u => String.eqb (models.User.email u) (username form))
              (users db)) as [[id u]|] eqn:E.
  - rewrite (login_found form db id u E).
    apply query_first_Some in E as [Hu He]. apply String.eqb_eq in He.
    destruct (verify_password (password form) (models.User.hashed_password u)) eqn:Hv;
      destruct (models.User.is_verified u) eqn:Hver; simpl.
    + (* the password verifies and the user is verified *)
      split.
      * split; [discriminate|].
        intros [Hfresh|(j & v & Hj & Hje & Hbad)].
        -- destruct (Hfresh id u Hu He).
        -- assert (j = id) by (apply (Huniq j id v u Hj Hu); congruence). subst j.
           assert (v = u) by congruence. subst v.
           destruct Hbad; congruence.
      * intros _. split; [eauto|]. rewrite He. reflexivity.
    + split; [|intros H; destruct H; reflexivity].
      split; [|reflexivity]. intros _. right. exists id, u. auto.
    + split; [|intros H; destruct H; reflexivity].
      split; [|reflexivity]. intros _. right. exists id, u. auto.
    + split; [|intros H; destruct H; reflexivity].
      split; [|reflexivity]. intros _. right. exists id, u. auto.
  - unfold main.login. rewrite E. simpl.
    split; [|intros H; destruct H; reflexivity].
    split; [|reflexivity]. intros _. left. apply email_query_None. exact E.
Qed.

End authentication.

(** ** Contacts *)

(** C5: [create_contact] answers with the view of the fields it was given,
    the key of the new row and the owner's id; [get_contact] on that key
    answers with the same view; the contacts stored before are kept. *)
Theorem create_then_get_contact (contact : schemas.ContactCreate.t) (db : Session)
    (current_user : Z * models.User.t) :
  let id := next_id (contacts db) in
  let view :=
    contact_view id
      (schemas.ContactCreate.first_name contact) (schemas.ContactCreate.last_name contact)
      (schemas.ContactCreate.email contact) (schemas.ContactCreate.phone contact)
      (schemas.ContactCreate.birthday contact)
      (schemas.ContactCreate.additional_info contact)
      (fst current_user) in
  let db1 := snd (main.create_contact contact db current_user) in
  fst (main.create_contact contact db current_user) = JSONResponse view /\
  main.get_contact id db1 = (JSONResponse view, db1) /\
  contacts db !! id = None /\
  (forall j, j <> id -> contacts db1 !! j = contacts db !! j) /\
  users db1 = users db.
Proof.
  cbv zeta. unfold main.create_contact, main.get_contact. simpl.
  rewrite lookup_insert_eq.
  split; [reflexivity|]. split; [reflexivity|].
  split; [apply next_id_fresh|]. split; [|reflexivity].
  intros j Hj. apply lookup_insert_ne. congruence.
Qed.

(** The loop of [update_contact] over the items of the update. *)
Lemma setattr_loop (contact : schemas.ContactUpdate.t) (c : models.Contact.t) :
  fold_left (fun c kv => models.Contact.setattr c (fst kv) (snd kv))
    (schemas.ContactUpdate.dict contact) c =
  models.Contact.Build
    (overwritten (schemas.ContactUpdate.first_name contact) (models.Contact.first_name c))
    (overwritten (schemas.ContactUpdate.last_name contact) (models.Contact.last_name c))
    (overwritten (schemas.ContactUpdate.email contact) (models.Contact.email c))
    (overwritten (schemas.ContactUpdate.phone contact) (models.Contact.phone c))
    (models.Contact.birthday c)
    (overwritten (schemas.ContactUpdate.additional_info contact)
       (models.Contact.additional_info c))
    (models.Contact.owner_id c).
Proof.
  destruct contact as [[fn|] [ln|] [em|] [ph|] [ai|]]; destruct c; reflexivity.
Qed.

(** C6: an update of an existing contact writes the supplied fields and
    only them: every field that was not supplied, the birthday and the
    owner keep their prior values, as do all other contacts and the users. *)
Theorem update_contact_frame (contact_id : Z) (contact : schemas.ContactUpdate.t)
    (db : Session) (c : models.Contact.t) :
  contacts db !! contact_id = Some c ->
  let db1 := snd (main.update_contact contact_id contact db) in
  exists c',
    contacts db1 !! contact_id = Some c' /\
    models.Contact.first_name c' =
      overwritten (schemas.ContactUpdate.first_name contact) (models.Contact.first_name c) /\
    models.Contact.last_name c' =
      overwritten (schemas.ContactUpdate.last_name contact) (models.Contact.last_name c) /\
    models.Contact.email c' =
      overwritten (schemas.ContactUpdate.email contact) (models.Contact.email c) /\
    models.Contact.phone c' =
      overwritten (schemas.ContactUpdate.phone contact) (models.Contact.phone c) /\
    models.Contact.additional_info c' =
      overwritten (schemas.ContactUpdate.additional_info contact)
        (models.Contact.additional_info c) /\
    models.Contact.birthday c' = models.Contact.birthday c /\
    models.Contact.owner_id c' = models.Contact.owner_id c /\
    (forall j, j <> contact_id -> contacts db1 !! j = contacts db !! j) /\
    users db1 = users db.
Proof.
  intros Hc. cbv zeta. unfold main.update_contact. rewrite Hc. simpl.
  rewrite setattr_loop. eexists. split; [apply lookup_insert_eq|].
  simpl. repeat (split; [reflexivity|]). split; [|reflexivity].
  intros j Hj. apply lookup_insert_ne. congruence.
Qed.

(** C8: [delete_contact] on a key that is not in the table answers 404 and
    changes nothing; on a stored contact it answers 200 with [{"ok": true}]
    and removes the row, so that [get_contact] on the key then answers 404;
    the other contacts are kept. *)
Theorem delete_contact_then_get (contact_id : Z) (db : Session) :
  (contacts db !! contact_id = None ->
   main.delete_contact contact_id db = (HTTPException 404 "Contact not found", db)) /\
  (forall c, contacts db !! contact_id = Some c ->
   let db1 := snd (main.delete_contact contact_id db) in
   main.delete_contact contact_id db = (JSONResponse (Object [("ok", VBool true)]), db1) /\
   main.get_contact contact_id db1 = (HTTPException 404 "Contact not found", db1) /\
   main.delete_contact contact_id db1 = (HTTPException 404 "Contact not found", db1) /\
   (forall j, j <> contact_id -> contacts db1 !! j = contacts db !! j) /\
   users db1 = users db).
Proof.
  unfold main.delete_contact, main.get_contact. split.
  - intros ->. reflexivity.
  - intros c ->. simpl. rewrite lookup_delete_eq.
    repeat split. intros j Hj. apply lookup_delete_ne. congruence.
Qed.

Lemma null_contact_invalid id c :
  has_null c -> model_validate schemas.Contact (models.Contact.attrs id c) = None.
Proof.
  destruct c as [[fn|] [ln|] [em|] [ph|] bd [ai|] ow]; unfold has_null; simpl;
    intros H; try reflexivity; repeat (destruct H as [H|H]; try discriminate).
Qed.

Lemma full_contact_valid id fn ln em ph bd ai ow :
  model_validate schemas.Contact
    (models.Contact.attrs id
       (models.Contact.Build (Some fn) (Some ln) (Some em) (Some ph) bd (Some ai) ow)) =
  Some [ ("first_name", VStr fn); ("last_name", VStr ln); ("email", VStr em);
         ("phone", VStr ph); ("birthday", VDate bd); ("additional_info", VStr ai);
         ("id", VInt id); ("owner_id", VInt ow) ].
Proof. reflexivity. Qed.

Lemma validate_all_invalid sch objs o :
  In o objs -> model_validate sch o = None -> validate_all sch objs = None.
Proof.
  induction objs as [|o' objs IH]; simpl; [tauto|].
  intros [->|Hin] Ho.
  - rewrite Ho. reflexivity.
  - rewrite (IH Hin Ho). destruct (model_validate sch o'); reflexivity.
Qed.

Lemma validate_all_None sch objs :
  validate_all sch objs = None ->
  exists o, In o objs /\ model_validate sch o = None.
Proof.
  induction objs as [|o objs IH]; simpl; [discriminate|]. intros H.
  destruct (model_validate sch o) as [fields|] eqn:Ho; [|eauto].
  destruct (validate_all sch objs) as [rest|]; [discriminate|].
  destruct (IH eq_refl) as (o' & Hin & Ho'). eauto.
Qed.

Lemma validate_all_Some sch objs items :
  validate_all sch objs = Some items ->
  Forall2 (fun o fields => model_validate sch o = Some fields) objs items.
Proof.
  revert items. induction objs as [|o objs IH]; simpl; intros items H.
  - injection H as <-. constructor.
  - destruct (model_validate sch o) as [fields|] eqn:Ho; [|discriminate].
    destruct (validate_all sch objs) as [rest|]; [|discriminate].
    injection H as <-. constructor; auto.
Qed.

(** C9, on the code: [get_contacts] takes no user and does not look at
    owners, but one stored contact with a NULL string column makes the
    whole list fail the response model: the answer is a server error and
    no contact is returned. *)
Theorem get_contacts_fails_on_null (db : Session) (id : Z) (c : models.Contact.t) :
  contacts db !! id = Some c ->
  has_null c ->
  main.get_contacts db = (Unhandled "ResponseValidationError", db) /\
  status_code (fst (main.get_contacts db)) = 500.
Proof.
  intros Hc Hnull.
  assert (E : main.get_contacts db = (Unhandled "ResponseValidationError", db)).
  { unfold main.get_contacts, serialize_list.
    rewrite (validate_all_invalid schemas.Contact _ (models.Contact.attrs id c)).
    - reflexivity.
    - apply (in_map (fun r => models.Contact.attrs (fst r) (snd r)) _ (id, c)).
      apply list_elem_of_In, elem_of_map_to_list. exact Hc.
    - apply null_contact_invalid. exact Hnull. }
  rewrite E. split; reflexivity.
Qed.

(** Where no stored contact has a NULL string column, [get_contacts]
    answers with one view for every contact of the table, whoever owns it. *)
Lemma get_contacts_all (db : Session) :
  (forall id c, contacts db !! id = Some c -> ~ has_null c) ->
  exists items,
    main.get_contacts db = (JSONResponse (Array items), db) /\
    length items = size (contacts db) /\
    forall id c, contacts db !! id = Some c ->
      exists fields,
        model_validate schemas.Contact (models.Contact.attrs id c) = Some fields /\
        In fields items.
Proof.
  intros Hfull. unfold main.get_contacts, serialize_list, all.
  destruct (validate_all schemas.Contact _) as [items|] eqn:E.
  - exists items. split; [reflexivity|].
    apply validate_all_Some in E. split.
    + rewrite <- (Forall2_length _ _ _ E), length_map. apply length_map_to_list.
    + intros id c Hc.
      apply elem_of_map_to_list, list_elem_of_In in Hc.
      apply (in_map (fun r => models.Contact.attrs (fst r) (snd r))) in Hc. simpl in Hc.
      revert Hc. generalize (models.Contact.attrs id c).
      induction E as [|o fields objs items Ho E IH]; simpl; [tauto|].
      intros o' [<-|Hin]; [eauto|].
      destruct (IH o' Hin) as (fields' & ? & ?). eauto.
  - exfalso.
    apply validate_all_None in E as (o & Ho & Einv).
    apply in_map_iff in Ho as ([id c] & <- & Hin).
    apply list_elem_of_In, elem_of_map_to_list in Hin. simpl in Einv.
    specialize (Hfull id c Hin). unfold has_null in Hfull.
    destruct c as [[fn|] [ln|] [em|] [ph|] bd [ai|] ow]; simpl in *;
      first [discriminate | apply Hfull; tauto].
Qed.

Section birthday.
Variable hash_password : string -> string -> string.
Variable verify_password : string -> string -> bool.
Variable create_access_token : list (string * value) -> string.
Variable verify_token : string -> option (list (string * value)).

(** C10: whatever the body of [PUT /contacts/{id}] holds, a [birthday]
    key included, every stored contact has the same birthday after the
    request as before, and no contact appears or disappears. *)
Theorem put_contact_keeps_birthday (contact_id : Z) (body : gmap string json)
    (db : Session) (j : Z) :
  let db1 :=
    snd (main.handle hash_password verify_password create_access_token verify_token
           (main.PUT_contact contact_id body) db) in
  models.Contact.birthday <$> contacts db1 !! j =
  models.Contact.birthday <$> contacts db !! j.
Proof.
  cbv zeta. simpl.
  destruct (parse_ContactUpdate body) as [contact|]; [|reflexivity].
  unfold main.update_contact.
  destruct (contacts db !! contact_id) as [c|] eqn:Hc; [|reflexivity].
  simpl. rewrite setattr_loop.
  destruct (decide (contact_id = j)) as [->|Hne].
  - rewrite lookup_insert_eq, Hc. reflexivity.
  - rewrite lookup_insert_ne by exact Hne. reflexivity.
Qed.

End birthday.

(** ** A session of the service

    The properties on a run of the sample service: [testuser] registers,
    verifies the email, logs in and creates the contact [john], whose
    first name is then set to null. *)

Lemma run_reachable reqs db : sample.reachable db -> sample.reachable (sample.run reqs db).
Proof.
  revert db. induction reqs as [|req reqs IH]; intros db Hdb; [exact Hdb|].
  apply (IH (snd (sample.handle req db))). apply main.reachable_step. exact Hdb.
Qed.

Lemma db_verified_reachable : sample.reachable sample.db_verified.
Proof. apply run_reachable. apply main.reachable_empty. Qed.

Lemma db_null_reachable : sample.reachable sample.db_null.
Proof. do 2 apply run_reachable. exact db_verified_reachable. Qed.

Lemma db_verified_user : users sample.db_verified !! 1 = Some sample.testuser_row.
Proof. vm_compute. reflexivity. Qed.

Lemma db_verified_unique : unique_emails sample.db_verified.
Proof.
  exact (reachable_unique_emails _ _ _ _ sample.db_verified db_verified_reachable).
Qed.

Lemma db_john_contact : contacts sample.db_john !! 1 = Some sample.john_row.
Proof. vm_compute. reflexivity. Qed.

Lemma db_john_no_contact : contacts sample.db_john !! 2 = None.
Proof. vm_compute. reflexivity. Qed.

Lemma db_null_contact : contacts sample.db_null !! 1 = Some sample.null_row.
Proof. vm_compute. reflexivity. Qed.

Lemma null_row_has_null : has_null sample.null_row.
Proof. left. reflexivity. Qed.

Lemma garbage_unheld_after_register :
  token_unheld "garbage"
    (snd (main.register sample.hash_password "salt" 12345 sample.testuser empty_db)).
Proof.
  rewrite (register_fresh sample.hash_password "salt" 12345 sample.testuser empty_db
             (fresh_email_empty _)).
  apply token_unheld_insert; [apply token_unheld_empty|].
  vm_compute. discriminate.
Qed.

(** The request of [test_register_user] on the empty database. *)
Lemma register_fresh_email_fails_response_model_witness :
  fresh_email "testuser@example.com" empty_db /\
  let '(resp, db') :=
    main.register sample.hash_password "salt" 12345 sample.testuser empty_db in
  resp = Unhandled "ResponseValidationError" /\
  status_code resp = 500 /\
  users db' !! next_id (users empty_db) =
    Some (registered sample.hash_password "salt" 12345 sample.testuser) /\
  models.User.is_verified (registered sample.hash_password "salt" 12345 sample.testuser)
    = false.
Proof.
  split; [apply fresh_email_empty|].
  apply (register_fresh_email_fails_response_model
           sample.hash_password "salt" 12345 sample.testuser empty_db).
  apply fresh_email_empty.
Defined.

(** The verified [testuser] of [db_verified]. *)
Lemma reachable_user_invariant_witness :
  sample.reachable sample.db_verified /\
  users sample.db_verified !! 1 = Some sample.testuser_row /\
  (models.User.is_verified sample.testuser_row = false ->
   exists t, models.User.verification_token sample.testuser_row = Some t /\ t <> "") /\
  (models.User.is_verified sample.testuser_row = true ->
   models.User.verification_token sample.testuser_row = None).
Proof.
  split; [exact db_verified_reachable|]. split; [exact db_verified_user|].
  exact (reachable_user_invariant _ _ _ _ sample.db_verified db_verified_reachable
           1 sample.testuser_row db_verified_user).
Defined.

(** Register on the empty database, try a garbage token, then verify the
    issued token twice. *)
Lemma verify_email_once_witness :
  let tok := uuid.str (uuid.uuid4 12345) in
  let db1 :=
    snd (main.register sample.hash_password "salt" 12345 sample.testuser empty_db) in
  let row :=
    models.User.Build "testuser@example.com"
      (sample.hash_password "salt" "testpassword") true None None in
  let db2 := set_users db1 (<[next_id (users empty_db) := row]> (users db1)) in
  (token_unheld "garbage" db1 /\
   fresh_email "testuser@example.com" empty_db /\
   token_unheld tok empty_db) /\
  main.verify_email "garbage" db1 = (HTTPException 400 "Invalid token", db1) /\
  users db1 !! next_id (users empty_db) =
    Some (registered sample.hash_password "salt" 12345 sample.testuser) /\
  main.verify_email tok db1 =
    (JSONResponse (Object [("msg", VStr "Email verified successfully")]), db2) /\
  users db2 !! next_id (users empty_db) = Some row /\
  main.verify_email tok db2 = (HTTPException 400 "Invalid token", db2).
Proof.
  split.
  - split; [exact garbage_unheld_after_register|].
    split; [apply fresh_email_empty|apply token_unheld_empty].
  - exact (verify_email_once sample.hash_password "salt" 12345 sample.testuser empty_db
             (snd (main.register sample.hash_password "salt" 12345 sample.testuser
                     empty_db))
             "garbage"
             garbage_unheld_after_register
             (fresh_email_empty _)
             (token_unheld_empty _)).
Defined.

(** The login of [testuser] after the verification. *)
Lemma login_unauthorized_iff_witness :
  unique_emails sample.db_verified /\
  (status_code
     (fst (main.login sample.verify_password sample.create_access_token
             sample.form sample.db_verified)) = 401 <->
     fresh_email (username sample.form) sample.db_verified \/
     exists id u,
       users sample.db_verified !! id = Some u /\
       models.User.email u = username sample.form /\
       (sample.verify_password (password sample.form) (models.User.hashed_password u)
          = false \/
        models.User.is_verified u = false)) /\
  (status_code
     (fst (main.login sample.verify_password sample.create_access_token
             sample.form sample.db_verified)) <> 401 ->
     (exists id u,
        users sample.db_verified !! id = Some u /\
        models.User.email u = username sample.form) /\
     main.login sample.verify_password sample.create_access_token
       sample.form sample.db_verified =
       (JSONResponse
          (Object [("access_token",
                    VStr (sample.create_access_token
                            [("sub", VStr (username sample.form))]));
                   ("token_type", VStr "bearer")]), sample.db_verified)).
Proof.
  split; [exact db_verified_unique|].
  exact (login_unauthorized_iff sample.verify_password sample.create_access_token
           sample.form sample.db_verified db_verified_unique).
Defined.

(** Before the verification the same login is turned down. *)
Example login_before_verification :
  fst (sample.handle (main.POST_token sample.form)
         (sample.run [main.POST_register "salt" 12345 sample.testuser] empty_db)) =
  HTTPException 401 "Email not verified".
Proof. vm_compute. reflexivity. Qed.

Example login_after_verification :
  fst (sample.handle (main.POST_token sample.form) sample.db_verified) =
  JSONResponse (Object [("access_token", VStr "jwt:testuser@example.com");
                        ("token_type", VStr "bearer")]).
Proof. vm_compute. reflexivity. Qed.

(** The contact [john] is created for the user of the bearer token. *)
Example create_john :
  fst (sample.handle (main.POST_contacts false "jwt:testuser@example.com" sample.john)
         sample.db_verified) =
  JSONResponse (contact_view 1 "John" "Doe" "johndoe@example.com" "123456789"
                  (Date 1990 1 1) "friend" 1).
Proof. vm_compute. reflexivity. Qed.

(** The last name of [john] is updated. *)
Lemma update_contact_frame_witness :
  contacts sample.db_john !! 1 = Some sample.john_row /\
  let db1 := snd (main.update_contact 1 sample.smith sample.db_john) in
  exists c',
    contacts db1 !! 1 = Some c' /\
    models.Contact.first_name c' = Some "John" /\
    models.Contact.last_name c' = Some "Smith" /\
    models.Contact.email c' = Some "johndoe@example.com" /\
    models.Contact.phone c' = Some "123456789" /\
    models.Contact.additional_info c' = Some "friend" /\
    models.Contact.birthday c' = Date 1990 1 1 /\
    models.Contact.owner_id c' = 1 /\
    (forall j, j <> 1 -> contacts db1 !! j = contacts sample.db_john !! j) /\
    users db1 = users sample.db_john.
Proof.
  split; [exact db_john_contact|].
  exact (update_contact_frame 1 sample.smith sample.db_john sample.john_row
           db_john_contact).
Defined.

(** [test_register_existing_user] on the empty database. *)
Lemma register_twice_conflict_witness :
  unique_emails empty_db /\
  let db1 :=
    snd (main.register sample.hash_password "s1" 1
           (schemas.UserCreate.Build "existinguser@example.com" "password") empty_db) in
  main.register sample.hash_password "s2" 2
    (schemas.UserCreate.Build "existinguser@example.com" "password") db1 =
    (HTTPException 409 "User with this email already exists", db1) /\
  exists id u,
    users db1 !! id = Some u /\ models.User.email u = "existinguser@example.com" /\
    forall j v, users db1 !! j = Some v ->
                models.User.email v = "existinguser@example.com" -> j = id.
Proof.
  split; [exact unique_emails_empty|].
  exact (register_twice_conflict sample.hash_password "s1" 1 "s2" 2
           "existinguser@example.com" "password" "password" empty_db
           unique_emails_empty).
Defined.

(** The contact [john] is deleted; there is no contact 2 to delete. *)
Lemma delete_contact_then_get_witness :
  (contacts sample.db_john !! 2 = None /\
   contacts sample.db_john !! 1 = Some sample.john_row) /\
  main.delete_contact 2 sample.db_john =
    (HTTPException 404 "Contact not found", sample.db_john) /\
  let db1 := snd (main.delete_contact 1 sample.db_john) in
  main.delete_contact 1 sample.db_john =
    (JSONResponse (Object [("ok", VBool true)]), db1) /\
  main.get_contact 1 db1 = (HTTPException 404 "Contact not found", db1).
Proof.
  split; [split; [exact db_john_no_contact|exact db_john_contact]|].
  split.
  - exact (proj1 (delete_contact_then_get 2 sample.db_john) db_john_no_contact).
  - destruct (proj2 (delete_contact_then_get 1 sample.db_john)
                sample.john_row db_john_contact) as (Hdel & Hget & _).
    split; [exact Hdel|exact Hget].
Defined.

(** After [PUT /contacts/1] with [{"first_name": null}] the list of
    contacts cannot be read any more. *)
Lemma get_contacts_fails_on_null_witness :
  sample.reachable sample.db_null /\
  (contacts sample.db_null !! 1 = Some sample.null_row /\ has_null sample.null_row) /\
  main.get_contacts sample.db_null =
    (Unhandled "ResponseValidationError", sample.db_null) /\
  status_code (fst (main.get_contacts sample.db_null)) = 500.
Proof.
  split; [exact db_null_reachable|].
  split; [split; [exact db_null_contact|exact null_row_has_null]|].
  exact (get_contacts_fails_on_null sample.db_null 1 sample.null_row
           db_null_contact null_row_has_null).
Defined.

(** Before that request the list holds the one contact. *)
Example get_contacts_before_null :
  fst (main.get_contacts sample.db_john) =
  JSONResponse (Array [[ ("first_name", VStr "John"); ("last_name", VStr "Doe");
                         ("email", VStr "johndoe@example.com");
                         ("phone", VStr "123456789");
                         ("birthday", VDate (Date 1990 1 1));
                         ("additional_info", VStr "friend");
                         ("id", VInt 1); ("owner_id", VInt 1) ]]).
Proof. vm_compute. reflexivity. Qed.

(** A body with a [birthday] and a [first_name]: the first name is
    written and the birthday stays. *)
Example put_contact_with_birthday :
  contacts
    (snd (sample.handle
            (main.PUT_contact 1
               (<["birthday" := JString "2000-01-01"]>
                  {[ "first_name" := JString "Jane" ]}))
            sample.db_john)) !! 1 =
  Some (models.Contact.Build (Some "Jane") (Some "Doe") (Some "johndoe@example.com")
          (Some "123456789") (Date 1990 1 1) (Some "friend") 1).
Proof. vm_compute. reflexivity. Qed.

(** ** The current user *)

Section current_user.
Variable verify_password : string -> string -> bool.
Variable create_access_token : list (string * value) -> string.
Variable verify_token : string -> option (list (string * value)).

Abbreviation get_current_user := (main.get_current_user verify_token).

(** [get_current_user] on a payload whose subject is the string [e]. *)
Lemma get_current_user_subject token db payload e :
  verify_token token = Some payload ->
  dict_get "sub" payload = Some (VStr e) ->
  e <> "" ->
  get_current_user token db =
    match query_first (fun u => String.eqb (models.User.email u) e) (users db) with
    | None => inl (HTTPException 404 "User not found")
    | Some u => inr u
    end.
Proof.
  intros Hv Hsub He. unfold main.get_current_user. rewrite Hv, Hsub. simpl.
  apply String.eqb_neq in He. rewrite He. reflexivity.
Qed.


(** A token whose payload has the non-empty subject [e]: when no user has
    the email [e] the answer is 404; with unique emails, the user with the
    email [e] is the current user. *)
Theorem get_current_user_finds token db payload e :
  verify_token token = Some payload ->
  dict_get "sub" payload = Some (VStr e) ->
  e <> "" ->
  (fresh_email e db ->
   get_current_user token db = inl (HTTPException 404 "User not found")) /\
  (unique_emails db ->
   forall id u, users db !! id = Some u -> models.User.email u = e ->
   get_current_user token db = inr (id, u)).
Proof.
  intros Hv Hsub He.
  rewrite (get_current_user_subject token db payload e Hv Hsub He). split.
  - intros Hfresh. apply email_query_None in Hfresh. rewrite Hfresh. reflexivity.
  - intros Huniq id u Hu Hue.
    rewrite (query_first_unique _ (users db) id u Hu).
    + reflexivity.
    + apply String.eqb_eq. exact Hue.
    + intros j v Hv' HP. apply String.eqb_eq in HP.
      apply (Huniq j id v u Hv' Hu). congruence.
Qed.

(** A successful login followed by a request with the returned token: if
    the token service reads the token back as a payload whose subject is
    the email of the login, and that email is not empty, the current user
    is the verified user who logged in. *)
Theorem login_token_resolves form db tok payload :
  unique_emails db ->
  main.login verify_password create_access_token form db =
    (JSONResponse (Object [("access_token", VStr tok); ("token_type", VStr "bearer")]),
     db) ->
  verify_token tok = Some payload ->
  dict_get "sub" payload = Some (VStr (username form)) ->
  username form <> "" ->
  exists id u,
    get_current_user tok db = inr (id, u) /\
    models.User.email u = username form /\
    models.User.is_verified u = true /\
    verify_password (password form) (models.User.hashed_password u) = true.
Proof.
  intros Huniq Hlogin Hv Hsub He.
  destruct (query_first (fun u => String.eqb (models.User.email u) (username form))
              (users db)) as [[id u]|] eqn:E.
  - rewrite (login_found verify_password create_access_token form db id u E) in Hlogin.
    apply query_first_Some in E as [Hu Hue]. apply String.eqb_eq in Hue.
    destruct (verify_password (password form) (models.User.hashed_password u)) eqn:Hpw;
      [|discriminate].
    destruct (models.User.is_verified u) eqn:Hver; [|discriminate].
    exists id, u. repeat split; try assumption.
    rewrite (get_current_user_subject tok db payload (username form) Hv Hsub He).
    rewrite (query_first_unique _ (users db) id u Hu).
    + reflexivity.
    + apply String.eqb_eq. exact Hue.
    + intros j v Hv' HP. apply String.eqb_eq in HP.
      apply (Huniq j id v u Hv' Hu). congruence.
  - unfold main.login in Hlogin. rewrite E in Hlogin. discriminate.
Qed.

End current_user.

(** ** What a request leaves unchanged *)

Lemma serialize_response_status sch obj :
  status_code (serialize_response sch obj) = 200 \/
  status_code (serialize_response sch obj) = 500.
Proof.
  unfold serialize_response. destruct (model_validate sch obj); simpl; auto.
Qed.

Lemma serialize_list_status sch objs :
  status_code (serialize_list sch objs) = 200 \/
  status_code (serialize_list sch objs) = 500.
Proof.
  unfold serialize_list. destruct (validate_all sch objs); simpl; auto.
Qed.

Lemma set_contacts_id db c id :
  contacts db !! id = Some c -> set_contacts db (<[id := c]> (contacts db)) = db.
Proof.
  intros Hc. destruct db as [us cs]. unfold set_contacts. simpl in *.
  f_equal. apply insert_id. exact Hc.
Qed.

Section frames.
Variable hash_password : string -> string -> string.
Variable verify_password : string -> string -> bool.
Variable create_access_token : list (string * value) -> string.
Variable verify_token : string -> option (list (string * value)).

Abbreviation handle :=
  (main.handle hash_password verify_password create_access_token verify_token).
Abbreviation serve :=
  (serve hash_password verify_password create_access_token verify_token).

(** Every request that is answered with a 4xx status (400, 401, 404, 409,
    422, 429) leaves the database as it was: all these errors are raised
    before anything is written. *)
Theorem client_error_keeps_db req db :
  client_error (fst (handle req db)) -> snd (handle req db) = db.
Proof.
  unfold client_error.
  destruct req as [salt rnd user|token|form_data|limited bearer contact| |cid|cid body|cid
                  |bearer upload]; simpl.
  - unfold main.register.
    destruct (query_first _ _); [reflexivity|]. cbn [fst snd].
    match goal with |- context [serialize_response ?s ?o] =>
      destruct (serialize_response_status s o) as [E|E]; rewrite E; lia end.
  - unfold main.verify_email.
    destruct (query_first _ _) as [[j v]|]; [simpl; lia|reflexivity].
  - unfold main.login.
    destruct (query_first _ _) as [[j v]|]; [|reflexivity].
    destruct (negb _); [reflexivity|]. destruct (negb _); reflexivity.
  - destruct limited; [reflexivity|].
    destruct (main.get_current_user _ _ _) as [err|cu]; [reflexivity|].
    unfold main.create_contact. cbn [fst snd].
    match goal with |- context [serialize_response ?s ?o] =>
      destruct (serialize_response_status s o) as [E|E]; rewrite E; lia end.
  - reflexivity.
  - unfold main.get_contact. destruct (contacts db !! cid); reflexivity.
  - destruct (parse_ContactUpdate body); [|reflexivity].
    unfold main.update_contact. destruct (contacts db !! cid); [|reflexivity].
    cbn [fst snd].
    match goal with |- context [serialize_response ?s ?o] =>
      destruct (serialize_response_status s o) as [E|E]; rewrite E; lia end.
  - unfold main.delete_contact. destruct (contacts db !! cid); [simpl; lia|reflexivity].
  - destruct (main.get_current_user _ _ _) as [err|[j v]]; [reflexivity|].
    destruct upload; [simpl; lia|reflexivity].
Qed.

(** A request writes to one table at most: registration, verification,
    login and the avatar leave the contacts as they are, and the contact
    routes leave the users as they are. *)
Theorem handle_writes_one_table req db :
  match req with
  | main.POST_register _ _ _ | main.GET_verify_email _ | main.POST_token _
  | main.PUT_users_avatar _ _ =>
      contacts (snd (handle req db)) = contacts db
  | _ => users (snd (handle req db)) = users db
  end.
Proof.
  destruct req as [salt rnd user|token|form_data|limited bearer contact| |cid|cid body|cid
                  |bearer upload]; simpl.
  - unfold main.register. destruct (query_first _ _); reflexivity.
  - unfold main.verify_email. destruct (query_first _ _) as [[j v]|]; reflexivity.
  - unfold main.login.
    destruct (query_first _ _) as [[j v]|]; [|reflexivity].
    destruct (negb _); [reflexivity|]. destruct (negb _); reflexivity.
  - destruct limited; [reflexivity|].
    destruct (main.get_current_user _ _ _); reflexivity.
  - reflexivity.
  - unfold main.get_contact. destruct (contacts db !! cid); reflexivity.
  - destruct (parse_ContactUpdate body); [|reflexivity].
    unfold main.update_contact. destruct (contacts db !! cid); reflexivity.
  - unfold main.delete_contact. destruct (contacts db !! cid); reflexivity.
  - destruct (main.get_current_user _ _ _) as [err|[j v]]; [reflexivity|].
    destruct upload; reflexivity.
Qed.

(** One request keeps every user: the row stays under its key with the
    same email and password hash, and a verified user stays verified. *)
Lemma handle_keeps_user req db id u :
  users db !! id = Some u ->
  exists u',
    users (snd (handle req db)) !! id = Some u' /\
    models.User.email u' = models.User.email u /\
    models.User.hashed_password u' = models.User.hashed_password u /\
    (models.User.is_verified u = true -> models.User.is_verified u' = true).
Proof.
  intros Hu.
  destruct (handle_users hash_password verify_password create_access_token verify_token
              req db) as [->|(j & row & -> & Hrow)]; [eauto|].
  destruct (decide (j = id)) as [->|Hne].
  - rewrite lookup_insert_eq. exists row.
    destruct Hrow as [(salt & rnd & user & _ & _ & ->)|[(v & Hv & ->)|(v & url & Hv & ->)]].
    + rewrite next_id_fresh in Hu. discriminate.
    + assert (v = u) by congruence. subst v. simpl. auto.
    + assert (v = u) by congruence. subst v. simpl. auto.
  - rewrite lookup_insert_ne by exact Hne. eauto.
Qed.

(** Whatever requests are served, a user is never deleted, never changes
    email or password hash, and never goes back from verified to
    unverified. *)
Theorem users_persist reqs db id u :
  users db !! id = Some u ->
  exists u',
    users (serve reqs db) !! id = Some u' /\
    models.User.email u' = models.User.email u /\
    models.User.hashed_password u' = models.User.hashed_password u /\
    (models.User.is_verified u = true -> models.User.is_verified u' = true).
Proof.
  revert db u. induction reqs as [|req reqs IH]; intros db u Hu; [simpl; eauto|].
  destruct (handle_keeps_user req db id u Hu) as (u1 & Hu1 & He1 & Hh1 & Hv1).
  destruct (IH _ u1 Hu1) as (u' & Hu' & He & Hh & Hv).
  exists u'. split; [exact Hu'|].
  split; [congruence|]. split; [congruence|auto].
Qed.

(** Whatever requests are served on a database with unique emails, the
    emails stay unique: [register] is the only writer of emails and it
    turns a taken email down. *)
Theorem serve_unique_emails reqs db :
  unique_emails db -> unique_emails (serve reqs db).
Proof.
  revert db. induction reqs as [|req reqs IH]; intros db Hdb; [exact Hdb|].
  apply (IH (snd (handle req db))).
  apply handle_preserves_unique_emails. exact Hdb.
Qed.

End frames.

(** ** Owners *)

Section owners.
Variable hash_password : string -> string -> string.
Variable verify_password : string -> string -> bool.
Variable create_access_token : list (string * value) -> string.
Variable verify_token : string -> option (list (string * value)).

Abbreviation handle :=
  (main.handle hash_password verify_password create_access_token verify_token).
Abbreviation serve :=
  (serve hash_password verify_password create_access_token verify_token).

(** The contacts table after a request: unchanged, a row removed, a row
    updated with its owner kept, or a new row owned by a user of the table. *)
Lemma handle_contacts req db :
  contacts (snd (handle req db)) = contacts db \/
  (exists id, contacts (snd (handle req db)) = delete id (contacts db)) \/
  exists id row,
    contacts (snd (handle req db)) = <[id := row]> (contacts db) /\
    ((exists c, contacts db !! id = Some c /\
                models.Contact.owner_id row = models.Contact.owner_id c) \/
     is_Some (users db !! models.Contact.owner_id row)).
Proof.
  destruct req as [salt rnd user|token|form_data|limited bearer contact| |cid|cid body|cid
                  |bearer upload]; simpl.
  - left. unfold main.register. destruct (query_first _ _); reflexivity.
  - left. unfold main.verify_email. destruct (query_first _ _) as [[j v]|]; reflexivity.
  - left. unfold main.login.
    destruct (query_first _ _) as [[j v]|]; [|reflexivity].
    destruct (negb _); [reflexivity|]. destruct (negb _); reflexivity.
  - destruct limited; [left; reflexivity|].
    destruct (main.get_current_user _ _ _) as [err|[j v]] eqn:E; [left; reflexivity|].
    apply get_current_user_lookup in E.
    right. right. eexists _, _. split; [reflexivity|]. right. simpl. eauto.
  - left. reflexivity.
  - left. unfold main.get_contact. destruct (contacts db !! cid); reflexivity.
  - destruct (parse_ContactUpdate body) as [contact|]; [|left; reflexivity].
    unfold main.update_contact.
    destruct (contacts db !! cid) as [c|] eqn:Hc; [|left; reflexivity].
    right. right. eexists _, _. split; [reflexivity|]. left.
    exists c. split; [exact Hc|]. rewrite setattr_loop. reflexivity.
  - unfold main.delete_contact.
    destruct (contacts db !! cid); [|left; reflexivity].
    right. left. exists cid. reflexivity.
  - left. destruct (main.get_current_user _ _ _) as [err|[j v]]; [reflexivity|].
    destruct upload; reflexivity.
Qed.

Lemma handle_keeps_owners req db :
  owners_exist db -> owners_exist (snd (handle req db)).
Proof.
  intros Hown id c Hc.
  assert (Hkeep : forall k, is_Some (users db !! k) ->
                            is_Some (users (snd (handle req db)) !! k)).
  { intros k [u Hu].
    destruct (handle_keeps_user hash_password verify_password create_access_token
                verify_token req db k u Hu) as (u' & Hu' & _).
    eauto. }
  destruct (handle_contacts req db) as [E|[(j & E)|(j & row & E & Hrow)]];
    rewrite E in Hc.
  - apply Hkeep. exact (Hown id c Hc).
  - apply lookup_delete_Some in Hc as [_ Hc]. apply Hkeep. exact (Hown id c Hc).
  - apply lookup_insert_Some in Hc as [[-> <-]|[_ Hc]].
    + apply Hkeep. destruct Hrow as [(c0 & Hc0 & ->)|Hrow]; [exact (Hown id c0 Hc0)|].
      exact Hrow.
    + apply Hkeep. exact (Hown id c Hc).
Qed.

(** Whatever requests are served, the owner of every stored contact is a
    user of the users table: a contact is created for a user that
    [get_current_user] found, no update changes the owner and no user is
    ever deleted. *)
Theorem serve_keeps_owners reqs db :
  owners_exist db -> owners_exist (serve reqs db).
Proof.
  revert db. induction reqs as [|req reqs IH]; intros db Hdb; [exact Hdb|].
  apply (IH (snd (handle req db))). apply handle_keeps_owners. exact Hdb.
Qed.

(** [PUT /users/avatar/] changes no contact, creates and deletes no user,
    and leaves the email, the password hash, the verification state and
    the token of every user as they were, whatever the bearer token and
    the answer of the upload. *)
Theorem update_avatar_keeps_credentials bearer upload db id :
  let db1 := snd (handle (main.PUT_users_avatar bearer upload) db) in
  contacts db1 = contacts db /\
  credentials <$> users db1 !! id = credentials <$> users db !! id.
Proof.
  cbv zeta. simpl.
  destruct (main.get_current_user _ _ _) as [err|[j v]] eqn:E; [auto|].
  apply get_current_user_lookup in E.
  destruct upload as [url|]; [|auto]. simpl. split; [reflexivity|].
  destruct (decide (j = id)) as [->|Hne].
  - rewrite lookup_insert_eq, E. reflexivity.
  - rewrite lookup_insert_ne by exact Hne. reflexivity.
Qed.

(** With a bearer token that resolves to the user [u], and an upload that
    answers [url], [PUT /users/avatar/] answers 200 with the url and
    stores it as the avatar of [u]. *)
Theorem update_avatar_stores_url bearer url db id u :
  main.get_current_user verify_token bearer db = inr (id, u) ->
  let '(resp, db1) := handle (main.PUT_users_avatar bearer (Some url)) db in
  resp = JSONResponse (Object [("msg", VStr "Avatar updated"); ("avatar_url", VStr url)]) /\
  (exists u', users db1 !! id = Some u' /\
              models.User.avatar_url u' = Some url /\
              credentials u' = credentials u) /\
  forall j, j <> id -> users db1 !! j = users db !! j.
Proof.
  intros E. simpl. rewrite E. simpl. split; [reflexivity|]. split.
  - eexists. split; [apply lookup_insert_eq|]. split; reflexivity.
  - intros j Hj. apply lookup_insert_ne. congruence.
Qed.

End owners.

(** ** Reading and updating a contact *)

(** [get_contact] in full: 404 for a key that is not in the table, the
    contact view for a row whose string columns are all filled, and a
    server error (the row fails the response model) for a row with a NULL
    string column.  The database is never changed. *)
Theorem get_contact_cases (contact_id : Z) (db : Session) :
  (contacts db !! contact_id = None ->
   main.get_contact contact_id db = (HTTPException 404 "Contact not found", db)) /\
  (forall fn ln em ph bd ai ow,
     contacts db !! contact_id =
       Some (models.Contact.Build (Some fn) (Some ln) (Some em) (Some ph) bd (Some ai) ow) ->
     main.get_contact contact_id db =
       (JSONResponse (contact_view contact_id fn ln em ph bd ai ow), db)) /\
  (forall c, contacts db !! contact_id = Some c -> has_null c ->
     main.get_contact contact_id db = (Unhandled "ResponseValidationError", db)).
Proof.
  unfold main.get_contact. split; [|split].
  - intros ->. reflexivity.
  - intros fn ln em ph bd ai ow ->. reflexivity.
  - intros c -> Hnull. unfold serialize_response.
    rewrite (null_contact_invalid contact_id c Hnull). reflexivity.
Qed.

Lemma overwritten_twice f prior : overwritten f (overwritten f prior) = overwritten f prior.
Proof. destruct f; reflexivity. Qed.

(** An update that sets a field to null is committed and then answered
    with a server error: the row is stored with the NULL, the response
    fails the response model, and so does every later [get_contact] of
    the contact. *)
Theorem update_contact_null_is_stored (contact_id : Z)
    (contact : schemas.ContactUpdate.t) (db : Session) (c : models.Contact.t) :
  contacts db !! contact_id = Some c ->
  supplies_null contact ->
  let '(resp, db1) := main.update_contact contact_id contact db in
  resp = Unhandled "ResponseValidationError" /\
  (exists c', contacts db1 !! contact_id = Some c' /\ has_null c') /\
  main.get_contact contact_id db1 = (Unhandled "ResponseValidationError", db1).
Proof.
  intros Hc Hnull. unfold main.update_contact. rewrite Hc. rewrite setattr_loop.
  set (c' := models.Contact.Build _ _ _ _ _ _ _).
  assert (Hc' : has_null c').
  { unfold has_null, c'. simpl.
    destruct Hnull as [-> | [-> | [-> | [-> | ->]]]]; simpl; tauto. }
  assert (E : serialize_response schemas.Contact (models.Contact.attrs contact_id c')
              = Unhandled "ResponseValidationError").
  { unfold serialize_response. rewrite (null_contact_invalid contact_id c' Hc').
    reflexivity. }
  rewrite E. split; [reflexivity|]. split.
  - exists c'. split; [apply lookup_insert_eq|exact Hc'].
  - unfold main.get_contact. simpl. rewrite lookup_insert_eq, E. reflexivity.
Qed.

(** An update is idempotent: served a second time it gives the same
    response and the same database as the first time. *)
Theorem update_contact_idempotent (contact_id : Z) (contact : schemas.ContactUpdate.t)
    (db : Session) :
  main.update_contact contact_id contact (snd (main.update_contact contact_id contact db))
  = main.update_contact contact_id contact db.
Proof.
  unfold main.update_contact.
  destruct (contacts db !! contact_id) as [c|] eqn:Hc; simpl; [|rewrite Hc; reflexivity].
  rewrite lookup_insert_eq, !setattr_loop. simpl.
  rewrite !overwritten_twice. unfold set_contacts. simpl.
  rewrite insert_insert_eq. reflexivity.
Qed.

Lemma parse_optional_str_insert body k v key :
  k <> key -> parse_optional_str (<[k := v]> body) key = parse_optional_str body key.
Proof. intros Hne. unfold parse_optional_str. rewrite lookup_insert_ne by exact Hne. reflexivity. Qed.

Section put.
Variable hash_password : string -> string -> string.
Variable verify_password : string -> string -> bool.
Variable create_access_token : list (string * value) -> string.
Variable verify_token : string -> option (list (string * value)).

Abbreviation handle :=
  (main.handle hash_password verify_password create_access_token verify_token).

(** A key of the body of [PUT /contacts/{id}] that is not one of the five
    fields of [ContactUpdate] (such as [id], [owner_id] or [birthday]) has
    no effect at all: with or without it, the response and the database
    are the same. *)
Theorem put_contact_ignores_unknown_key contact_id body k v db :
  ~ In k contact_fields ->
  handle (main.PUT_contact contact_id (<[k := v]> body)) db =
  handle (main.PUT_contact contact_id body) db.
Proof.
  intros Hk. simpl. unfold parse_ContactUpdate.
  rewrite !parse_optional_str_insert; [reflexivity|..];
    intros ->; apply Hk; simpl; tauto.
Qed.

(** [PUT /contacts/{id}] with a body that has none of the five fields
    (the empty object, or one with other keys only) writes nothing and
    answers as [GET /contacts/{id}] does. *)
Theorem put_contact_without_fields contact_id body db :
  (forall k, In k contact_fields -> body !! k = None) ->
  handle (main.PUT_contact contact_id body) db = main.get_contact contact_id db.
Proof.
  intros Hnone.
  assert (Hparse : parse_ContactUpdate body = Some no_update).
  { unfold parse_ContactUpdate, parse_optional_str.
    rewrite !Hnone by (simpl; tauto). reflexivity. }
  unfold main.handle. rewrite Hparse.
  unfold main.update_contact, main.get_contact.
  destruct (contacts db !! contact_id) as [c|] eqn:Hc; [|reflexivity].
  change (fold_left _ (schemas.ContactUpdate.dict no_update) c) with c.
  rewrite set_contacts_id by exact Hc. reflexivity.
Qed.

End put.

(** ** Verification and login, in general *)

(** [verify_email] answers 200 exactly when some user holds the token; it
    then verifies one user who held it and changes nothing else. *)
Theorem verify_email_ok_iff token db :
  (status_code (fst (main.verify_email token db)) = 200 <->
   exists id u, users db !! id = Some u /\
                models.User.verification_token u = Some token) /\
  (status_code (fst (main.verify_email token db)) = 200 ->
   exists id u,
     users db !! id = Some u /\
     models.User.verification_token u = Some token /\
     snd (main.verify_email token db) = set_users db (<[id := verified u]> (users db))).
Proof.
  unfold main.verify_email.
  change (fun u => match models.User.verification_token u with
                   | Some t => String.eqb t token
                   | None => false
                   end) with (has_token token).
  destruct (query_first (has_token token) (users db)) as [[id u]|] eqn:E; simpl.
  - apply query_first_Some in E as [Hu Ht]. apply has_token_true in Ht.
    split; [split; eauto|]. intros _. exists id, u. auto.
  - rewrite query_first_None in E.
    split; [split|]; try discriminate.
    intros (id & u & Hu & Ht). apply has_token_true in Ht.
    rewrite (E id u Hu) in Ht. discriminate.
Qed.

Section hiding.
Variable verify_password : string -> string -> bool.
Variable create_access_token : list (string * value) -> string.

(** [login] does not tell an unknown email from a wrong password: whenever
    no user with the email has a hash the password verifies against, be it
    that there is no such user at all, the answer is the same 401. *)
Theorem login_hides_unknown_email form db :
  (forall id u, users db !! id = Some u ->
     models.User.email u = username form ->
     verify_password (password form) (models.User.hashed_password u) = false) ->
  main.login verify_password create_access_token form db =
    (HTTPException 401 "Incorrect email or password", db).
Proof.
  intros Hbad.
  destruct (query_first (fun u => String.eqb (models.User.email u) (username form))
              (users db)) as [[id u]|] eqn:E.
  - rewrite (login_found verify_password create_access_token form db id u E).
    apply query_first_Some in E as [Hu He]. apply String.eqb_eq in He.
    rewrite (Hbad id u Hu He). reflexivity.
  - unfold main.login. rewrite E. reflexivity.
Qed.

End hiding.

(** ** What a response shows *)

(** A validated object has the fields of the schema, in their order, and
    nothing else of the object. *)
Lemma model_validate_keys sch obj fields :
  model_validate sch obj = Some fields -> map fst fields = field_names sch.
Proof.
  revert fields. induction sch as [|[[name t] default] sch IH]; intros fields H.
  - injection H as <-. reflexivity.
  - cbn [model_validate] in H.
    destruct (validate_field obj (name, t, default)) as [[k v]|] eqn:Ef; [|discriminate].
    destruct (model_validate sch obj) as [rest|]; [|discriminate].
    injection H as <-. unfold field_names. cbn [map fst]. f_equal; [|exact (IH rest eq_refl)].
    unfold validate_field in Ef.
    destruct (dict_get name obj) as [w|].
    + destruct (has_type t w); [|discriminate]. injection Ef as <- _. reflexivity.
    + destruct default; [|discriminate]. injection Ef as <- _. reflexivity.
Qed.

Lemma serialize_response_keys sch obj :
  incl (body_keys (serialize_response sch obj)) (field_names sch).
Proof.
  unfold serialize_response.
  destruct (model_validate sch obj) as [fields|] eqn:E; simpl.
  - rewrite (model_validate_keys sch obj fields E). apply incl_refl.
  - intros k [].
Qed.

Lemma serialize_list_keys sch objs :
  incl (body_keys (serialize_list sch objs)) (field_names sch).
Proof.
  unfold serialize_list.
  destruct (validate_all sch objs) as [items|] eqn:E; simpl; [|intros k []].
  apply validate_all_Some in E.
  induction E as [|o fields objs' items Ho E IH]; simpl; [intros k []|].
  intros k Hk. apply in_app_or in Hk as [Hk|Hk]; [|exact (IH k Hk)].
  rewrite (model_validate_keys sch o fields Ho) in Hk. exact Hk.
Qed.

Lemma contact_schema_has_no_secret k :
  In k (field_names schemas.Contact) ->
  k <> "hashed_password" /\ k <> "verification_token".
Proof.
  simpl. intros H.
  repeat (destruct H as [<-|H]; [split; discriminate|]). destruct H.
Qed.

Section secrets.
Variable hash_password : string -> string -> string.
Variable verify_password : string -> string -> bool.
Variable create_access_token : list (string * value) -> string.
Variable verify_token : string -> option (list (string * value)).

Lemma get_current_user_error token db err :
  main.get_current_user verify_token token db = inl err ->
  exists status detail, err = HTTPException status detail.
Proof.
  unfold main.get_current_user. intros H.
  destruct (verify_token token) as [payload|]; [|injection H as <-; eauto].
  destruct (dict_get "sub" payload) as [user_email|]; [|injection H as <-; eauto].
  destruct (negb (truthy user_email)); [injection H as <-; eauto|].
  destruct (query_first _ _); [discriminate|injection H as <-; eauto].
Qed.

(** No response of any route has a field named [hashed_password] or
    [verification_token]: the password hash and the verification token
    are never sent as fields of a user or of a contact. *)
Theorem responses_hold_no_secret_field req db k :
  In k (body_keys
          (fst (main.handle hash_password verify_password create_access_token
                  verify_token req db))) ->
  k <> "hashed_password" /\ k <> "verification_token".
Proof.
  destruct req as [salt rnd user|token|form_data|limited bearer contact| |cid|cid body|cid
                  |bearer upload]; cbn [main.handle].
  - unfold main.register. destruct (query_first _ _); cbn [fst]; [intros []|].
    intros H. apply serialize_response_keys in H.
    exact (contact_schema_has_no_secret k H).
  - unfold main.verify_email. destruct (query_first _ _) as [[j v]|]; simpl; [|tauto].
    intros [<-|[]]. split; discriminate.
  - unfold main.login. destruct (query_first _ _) as [[j v]|]; [|intros []].
    destruct (negb _); [intros []|]. destruct (negb _); [intros []|].
    simpl. intros [<-|[<-|[]]]; split; discriminate.
  - destruct limited; [intros []|].
    destruct (main.get_current_user _ _ _) as [err|cu] eqn:E.
    { apply get_current_user_error in E as (status & detail & ->). intros []. }
    unfold main.create_contact. cbn [fst]. intros H.
    apply serialize_response_keys in H. exact (contact_schema_has_no_secret k H).
  - unfold main.get_contacts. cbn [fst]. intros H.
    apply serialize_list_keys in H. exact (contact_schema_has_no_secret k H).
  - unfold main.get_contact. destruct (contacts db !! cid); cbn [fst]; [|intros []].
    intros H. apply serialize_response_keys in H.
    exact (contact_schema_has_no_secret k H).
  - destruct (parse_ContactUpdate body); [|intros []].
    unfold main.update_contact. destruct (contacts db !! cid); cbn [fst]; [|intros []].
    intros H. apply serialize_response_keys in H.
    exact (contact_schema_has_no_secret k H).
  - unfold main.delete_contact. destruct (contacts db !! cid); simpl; [|tauto].
    intros [<-|[]]. split; discriminate.
  - destruct (main.get_current_user _ _ _) as [err|[j v]] eqn:E.
    { apply get_current_user_error in E as (status & detail & ->). intros []. }
    destruct upload; simpl; [|tauto]. intros [<-|[<-|[]]]; split; discriminate.
Qed.

End secrets.

(** ** From registration to login *)

Section signup.
Variable hash_password : string -> string -> string.
Variable verify_password : string -> string -> bool.
Variable create_access_token : list (string * value) -> string.

(** The user with the email [e] is the row [u] under the key [id], in a
    table that is [t] with that row written. *)
Lemma email_query_insert e (t : gmap Z models.User.t) id u db :
  fresh_email e db ->
  models.User.email u = e ->
  t = <[id := u]> (users db) \/ (exists v, t = <[id := u]> (<[id := v]> (users db))) ->
  query_first (fun u => String.eqb (models.User.email u) e) t = Some (id, u).
Proof.
  intros Hfresh He Ht. apply query_first_unique.
  - destruct Ht as [->|[v ->]]; apply lookup_insert_eq.
  - apply String.eqb_eq. exact He.
  - intros j w Hw HP. apply String.eqb_eq in HP.
    destruct (decide (j = id)) as [->|Hne]; [reflexivity|].
    destruct Ht as [->|[v ->]]; rewrite !lookup_insert_ne in Hw by congruence;
      destruct (Hfresh j w Hw HP).
Qed.

(** Registration, verification and login in a row, with a hasher whose
    hash of the password verifies: right after the registration the login
    with the registered credentials is turned down with 401 Email not
    verified; after [verify_email] with the issued token the same login
    answers 200 with the token made for the email. *)
Theorem signup_then_login salt rnd user db :
  fresh_email (schemas.UserCreate.email user) db ->
  token_unheld (uuid.str (uuid.uuid4 rnd)) db ->
  verify_password (schemas.UserCreate.password user)
    (hash_password salt (schemas.UserCreate.password user)) = true ->
  let form :=
    {| username := schemas.UserCreate.email user;
       password := schemas.UserCreate.password user |} in
  let db1 := snd (main.register hash_password salt rnd user db) in
  let db2 := snd (main.verify_email (uuid.str (uuid.uuid4 rnd)) db1) in
  main.login verify_password create_access_token form db1 =
    (HTTPException 401 "Email not verified", db1) /\
  main.login verify_password create_access_token form db2 =
    (JSONResponse
       (Object [("access_token",
                 VStr (create_access_token
                         [("sub", VStr (schemas.UserCreate.email user))]));
                ("token_type", VStr "bearer")]), db2).
Proof.
  intros Hfresh Hun Hpw. cbv zeta.
  rewrite (register_fresh hash_password salt rnd user db Hfresh). cbn [snd].
  set (id := next_id (users db)).
  set (u := registered hash_password salt rnd user).
  assert (Hid : <[id := u]> (users db) !! id = Some u) by apply lookup_insert_eq.
  rewrite (verify_email_held (uuid.str (uuid.uuid4 rnd))
             (set_users db (<[id := u]> (users db))) id u Hid eq_refl).
  2: { intros j v Hv Ht. simpl in Hv.
       destruct (decide (j = id)) as [->|Hne]; [reflexivity|].
       rewrite lookup_insert_ne in Hv by congruence. destruct (Hun j v Hv Ht). }
  cbn [snd]. split.
  - rewrite (login_found verify_password create_access_token _ _ id u).
    + cbn [password username]. unfold u at 1 2. cbn [registered
        models.User.hashed_password models.User.is_verified].
      rewrite Hpw. reflexivity.
    + cbn [username users set_users].
      apply (email_query_insert _ _ id u db Hfresh); [reflexivity|left; reflexivity].
  - rewrite (login_found verify_password create_access_token _ _ id (verified u)).
    + cbn [password username]. unfold u. cbn [registered verified
        models.User.hashed_password models.User.is_verified models.User.email].
      rewrite Hpw. reflexivity.
    + cbn [username users set_users].
      apply (email_query_insert _ _ id (verified u) db Hfresh); [reflexivity|].
      right. exists u. reflexivity.
Qed.

End signup.

(** ** The further properties on the session of the service *)

Lemma bearer_verifies : sample.verify_token sample.bearer = Some sample.payload.
Proof. vm_compute. reflexivity. Qed.

Lemma bearer_resolves :
  main.get_current_user sample.verify_token sample.bearer sample.db_verified =
    inr (1, sample.testuser_row).
Proof. vm_compute. reflexivity. Qed.

Lemma testuser_email_nonempty : "testuser@example.com" <> "".
Proof. discriminate. Qed.


Lemma get_current_user_finds_witness :
  (sample.verify_token sample.bearer = Some sample.payload /\
   dict_get "sub" sample.payload = Some (VStr "testuser@example.com") /\
   "testuser@example.com" <> "" /\
   unique_emails sample.db_verified /\
   users sample.db_verified !! 1 = Some sample.testuser_row) /\
  main.get_current_user sample.verify_token sample.bearer sample.db_verified =
    inr (1, sample.testuser_row).
Proof.
  split.
  - split; [exact bearer_verifies|]. split; [reflexivity|].
    split; [exact testuser_email_nonempty|].
    split; [exact db_verified_unique|exact db_verified_user].
  - exact (proj2 (get_current_user_finds sample.verify_token sample.bearer
                    sample.db_verified sample.payload "testuser@example.com"
                    bearer_verifies eq_refl testuser_email_nonempty)
             db_verified_unique 1 sample.testuser_row db_verified_user eq_refl).
Defined.

Lemma login_gives_bearer :
  main.login sample.verify_password sample.create_access_token
    sample.form sample.db_verified =
    (JSONResponse (Object [("access_token", VStr sample.bearer);
                           ("token_type", VStr "bearer")]), sample.db_verified).
Proof. vm_compute. reflexivity. Qed.

Lemma login_token_resolves_witness :
  (unique_emails sample.db_verified /\
   main.login sample.verify_password sample.create_access_token
     sample.form sample.db_verified =
     (JSONResponse (Object [("access_token", VStr sample.bearer);
                            ("token_type", VStr "bearer")]), sample.db_verified) /\
   sample.verify_token sample.bearer = Some sample.payload /\
   dict_get "sub" sample.payload = Some (VStr (username sample.form)) /\
   username sample.form <> "") /\
  exists id u,
    main.get_current_user sample.verify_token sample.bearer sample.db_verified
      = inr (id, u) /\
    models.User.email u = username sample.form /\
    models.User.is_verified u = true /\
    sample.verify_password (password sample.form) (models.User.hashed_password u) = true.
Proof.
  split.
  - split; [exact db_verified_unique|]. split; [exact login_gives_bearer|].
    split; [exact bearer_verifies|]. split; [reflexivity|exact testuser_email_nonempty].
  - exact (login_token_resolves sample.verify_password sample.create_access_token
             sample.verify_token sample.form sample.db_verified sample.bearer
             sample.payload db_verified_unique login_gives_bearer bearer_verifies
             eq_refl testuser_email_nonempty).
Defined.

Lemma get_missing_contact_is_client_error :
  client_error (fst (sample.handle (main.GET_contact 7) sample.db_john)).
Proof.
  assert (E : status_code (fst (sample.handle (main.GET_contact 7) sample.db_john)) = 404)
    by (vm_compute; reflexivity).
  unfold client_error. rewrite E. lia.
Qed.

Lemma client_error_keeps_db_witness :
  client_error (fst (sample.handle (main.GET_contact 7) sample.db_john)) /\
  snd (sample.handle (main.GET_contact 7) sample.db_john) = sample.db_john.
Proof.
  split; [exact get_missing_contact_is_client_error|].
  exact (client_error_keeps_db sample.hash_password sample.verify_password
           sample.create_access_token sample.verify_token
           (main.GET_contact 7) sample.db_john get_missing_contact_is_client_error).
Defined.

Lemma users_persist_witness :
  users sample.db_verified !! 1 = Some sample.testuser_row /\
  exists u',
    users (serve sample.hash_password sample.verify_password sample.create_access_token
             sample.verify_token sample.later sample.db_verified) !! 1 = Some u' /\
    models.User.email u' = models.User.email sample.testuser_row /\
    models.User.hashed_password u' = models.User.hashed_password sample.testuser_row /\
    (models.User.is_verified sample.testuser_row = true ->
     models.User.is_verified u' = true).
Proof.
  split; [exact db_verified_user|].
  exact (users_persist sample.hash_password sample.verify_password
           sample.create_access_token sample.verify_token
           sample.later sample.db_verified 1 sample.testuser_row db_verified_user).
Defined.

Lemma serve_unique_emails_witness :
  unique_emails sample.db_verified /\
  unique_emails
    (serve sample.hash_password sample.verify_password sample.create_access_token
       sample.verify_token sample.later sample.db_verified).
Proof.
  split; [exact db_verified_unique|].
  exact (serve_unique_emails sample.hash_password sample.verify_password
           sample.create_access_token sample.verify_token
           sample.later sample.db_verified db_verified_unique).
Defined.

Lemma owners_exist_empty : owners_exist empty_db.
Proof. intros id c Hc. simpl in Hc. rewrite lookup_empty in Hc. discriminate. Qed.

Lemma serve_keeps_owners_witness :
  owners_exist empty_db /\
  owners_exist
    (serve sample.hash_password sample.verify_password sample.create_access_token
       sample.verify_token (sample.signup ++ sample.later) empty_db).
Proof.
  split; [exact owners_exist_empty|].
  exact (serve_keeps_owners sample.hash_password sample.verify_password
           sample.create_access_token sample.verify_token
           (sample.signup ++ sample.later) empty_db owners_exist_empty).
Defined.

(** The contact of the session is stored and owned by [testuser]. *)
Example session_contact_owner :
  let db :=
    serve sample.hash_password sample.verify_password sample.create_access_token
      sample.verify_token (sample.signup ++ sample.later) empty_db in
  models.Contact.owner_id <$> contacts db !! 1 = Some 1 /\
  models.User.avatar_url <$> users db !! 1 =
    Some (Some "http://res.cloudinary.com/avatars/1.png").
Proof. vm_compute. split; reflexivity. Qed.

Lemma update_avatar_stores_url_witness :
  main.get_current_user sample.verify_token sample.bearer sample.db_verified =
    inr (1, sample.testuser_row) /\
  let '(resp, db1) :=
    sample.handle (main.PUT_users_avatar sample.bearer (Some "http://a/1.png"))
      sample.db_verified in
  resp = JSONResponse (Object [("msg", VStr "Avatar updated");
                               ("avatar_url", VStr "http://a/1.png")]) /\
  (exists u', users db1 !! 1 = Some u' /\
              models.User.avatar_url u' = Some "http://a/1.png" /\
              credentials u' = credentials sample.testuser_row) /\
  forall j, j <> 1 -> users db1 !! j = users sample.db_verified !! j.
Proof.
  split; [exact bearer_resolves|].
  exact (update_avatar_stores_url sample.hash_password sample.verify_password
           sample.create_access_token sample.verify_token
           sample.bearer "http://a/1.png" sample.db_verified 1 sample.testuser_row
           bearer_resolves).
Defined.

Lemma db_john_contacts : contacts sample.db_john = {[1 := sample.john_row]}.
Proof. vm_compute. reflexivity. Qed.

Lemma db_john_no_null id c : contacts sample.db_john !! id = Some c -> ~ has_null c.
Proof.
  rewrite db_john_contacts. intros H.
  apply lookup_singleton_Some in H as [_ <-].
  unfold has_null. simpl. intros [H|[H|[H|[H|H]]]]; discriminate.
Qed.

Lemma get_contacts_all_witness :
  (forall id c, contacts sample.db_john !! id = Some c -> ~ has_null c) /\
  exists items,
    main.get_contacts sample.db_john = (JSONResponse (Array items), sample.db_john) /\
    length items = size (contacts sample.db_john) /\
    forall id c, contacts sample.db_john !! id = Some c ->
      exists fields,
        model_validate schemas.Contact (models.Contact.attrs id c) = Some fields /\
        In fields items.
Proof.
  split; [exact db_john_no_null|].
  exact (get_contacts_all sample.db_john db_john_no_null).
Defined.

Lemma get_contact_cases_witness :
  (contacts sample.db_john !! 2 = None /\
   contacts sample.db_john !! 1 = Some sample.john_row /\
   contacts sample.db_null !! 1 = Some sample.null_row /\
   has_null sample.null_row) /\
  main.get_contact 2 sample.db_john =
    (HTTPException 404 "Contact not found", sample.db_john) /\
  main.get_contact 1 sample.db_john =
    (JSONResponse (contact_view 1 "John" "Doe" "johndoe@example.com" "123456789"
                     (Date 1990 1 1) "friend" 1), sample.db_john) /\
  main.get_contact 1 sample.db_null =
    (Unhandled "ResponseValidationError", sample.db_null).
Proof.
  split.
  - split; [exact db_john_no_contact|]. split; [exact db_john_contact|].
    split; [exact db_null_contact|exact null_row_has_null].
  - split; [|split].
    + exact (proj1 (get_contact_cases 2 sample.db_john) db_john_no_contact).
    + exact (proj1 (proj2 (get_contact_cases 1 sample.db_john))
               "John" "Doe" "johndoe@example.com" "123456789" (Date 1990 1 1)
               "friend" 1 db_john_contact).
    + exact (proj2 (proj2 (get_contact_cases 1 sample.db_null))
               sample.null_row db_null_contact null_row_has_null).
Defined.

Lemma null_update_supplies_null : supplies_null sample.null_update.
Proof. left. reflexivity. Qed.

Lemma update_contact_null_is_stored_witness :
  (contacts sample.db_john !! 1 = Some sample.john_row /\
   supplies_null sample.null_update) /\
  let '(resp, db1) := main.update_contact 1 sample.null_update sample.db_john in
  resp = Unhandled "ResponseValidationError" /\
  (exists c', contacts db1 !! 1 = Some c' /\ has_null c') /\
  main.get_contact 1 db1 = (Unhandled "ResponseValidationError", db1).
Proof.
  split; [split; [exact db_john_contact|exact null_update_supplies_null]|].
  exact (update_contact_null_is_stored 1 sample.null_update sample.db_john
           sample.john_row db_john_contact null_update_supplies_null).
Defined.

Lemma owner_id_is_no_field : ~ In "owner_id" contact_fields.
Proof. simpl. intros [H|[H|[H|[H|[H|[]]]]]]; discriminate. Qed.

(** A body that tries to give the contact to the user 2. *)
Lemma put_contact_ignores_unknown_key_witness :
  ~ In "owner_id" contact_fields /\
  sample.handle
    (main.PUT_contact 1 (<["owner_id" := JNumber 2]> {[ "phone" := JString "555" ]}))
    sample.db_john =
  sample.handle (main.PUT_contact 1 {[ "phone" := JString "555" ]}) sample.db_john.
Proof.
  split; [exact owner_id_is_no_field|].
  exact (put_contact_ignores_unknown_key sample.hash_password sample.verify_password
           sample.create_access_token sample.verify_token
           1 {[ "phone" := JString "555" ]} "owner_id" (JNumber 2) sample.db_john
           owner_id_is_no_field).
Defined.

Lemma db_verified_users : users sample.db_verified = {[1 := sample.testuser_row]}.
Proof. vm_compute. reflexivity. Qed.

Lemma wrong_password_fails id u :
  users sample.db_verified !! id = Some u ->
  models.User.email u = username sample.wrong_form ->
  sample.verify_password (password sample.wrong_form) (models.User.hashed_password u)
    = false.
Proof.
  rewrite db_verified_users. intros H _.
  apply lookup_singleton_Some in H as [_ <-]. vm_compute. reflexivity.
Qed.

Lemma login_hides_unknown_email_witness :
  (forall id u, users sample.db_verified !! id = Some u ->
     models.User.email u = username sample.wrong_form ->
     sample.verify_password (password sample.wrong_form) (models.User.hashed_password u)
       = false) /\
  main.login sample.verify_password sample.create_access_token
    sample.wrong_form sample.db_verified =
    (HTTPException 401 "Incorrect email or password", sample.db_verified).
Proof.
  split; [exact wrong_password_fails|].
  exact (login_hides_unknown_email sample.verify_password sample.create_access_token
           sample.wrong_form sample.db_verified wrong_password_fails).
Defined.

Lemma access_token_is_a_key :
  In "access_token"
    (body_keys (fst (sample.handle (main.POST_token sample.form) sample.db_verified))).
Proof. vm_compute. left. reflexivity. Qed.

Lemma responses_hold_no_secret_field_witness :
  In "access_token"
    (body_keys (fst (sample.handle (main.POST_token sample.form) sample.db_verified))) /\
  "access_token" <> "hashed_password" /\ "access_token" <> "verification_token".
Proof.
  split; [exact access_token_is_a_key|].
  exact (responses_hold_no_secret_field sample.hash_password sample.verify_password
           sample.create_access_token sample.verify_token
           (main.POST_token sample.form) sample.db_verified "access_token"
           access_token_is_a_key).
Defined.

Lemma testpassword_verifies :
  sample.verify_password (schemas.UserCreate.password sample.testuser)
    (sample.hash_password "salt" (schemas.UserCreate.password sample.testuser)) = true.
Proof. vm_compute. reflexivity. Qed.

Lemma signup_then_login_witness :
  let form :=
    {| username := schemas.UserCreate.email sample.testuser;
       password := schemas.UserCreate.password sample.testuser |} in
  let db1 :=
    snd (main.register sample.hash_password "salt" 12345 sample.testuser empty_db) in
  let db2 := snd (main.verify_email (uuid.str (uuid.uuid4 12345)) db1) in
  (fresh_email (schemas.UserCreate.email sample.testuser) empty_db /\
   token_unheld (uuid.str (uuid.uuid4 12345)) empty_db /\
   sample.verify_password (schemas.UserCreate.password sample.testuser)
     (sample.hash_password "salt" (schemas.UserCreate.password sample.testuser)) = true) /\
  main.login sample.verify_password sample.create_access_token form db1 =
    (HTTPException 401 "Email not verified", db1) /\
  main.login sample.verify_password sample.create_access_token form db2 =
    (JSONResponse
       (Object [("access_token",
                 VStr (sample.create_access_token
                         [("sub", VStr (schemas.UserCreate.email sample.testuser))]));
                ("token_type", VStr "bearer")]), db2).
Proof.
  split.
  - split; [apply fresh_email_empty|].
    split; [apply token_unheld_empty|exact testpassword_verifies].
  - exact (signup_then_login sample.hash_password sample.verify_password
             sample.create_access_token "salt" 12345 sample.testuser empty_db
             (fresh_email_empty _) (token_unheld_empty _) testpassword_verifies).
Defined.

Lemma birthday_body_has_no_field k :
  In k contact_fields ->
  ({[ "birthday" := JString "2000-01-01" ]} : gmap string json) !! k = None.
Proof.
  simpl. intros [<-|[<-|[<-|[<-|[<-|[]]]]]]; reflexivity.
Qed.

(** A body with a birthday only. *)
Lemma put_contact_without_fields_witness :
  (forall k, In k contact_fields ->
     ({[ "birthday" := JString "2000-01-01" ]} : gmap string json) !! k = None) /\
  sample.handle (main.PUT_contact 1 {[ "birthday" := JString "2000-01-01" ]})
    sample.db_john =
  main.get_contact 1 sample.db_john.
Proof.
  split; [exact birthday_body_has_no_field|].
  exact (put_contact_without_fields sample.hash_password sample.verify_password
           sample.create_access_token sample.verify_token
           1 {[ "birthday" := JString "2000-01-01" ]} sample.db_john
           birthday_body_has_no_field).
Defined.
